(** * setup-fpm: the artifact-resolution and acquisition cascade of [index.js]

    A shallow embedding of [src/index.js] (the GitHub action that installs the
    Fortran package manager) and the properties of its filename resolver,
    download cascade, version gate and source-build pipeline.

    Layout:
    - [JS]: the pieces of the JavaScript runtime the action relies on
      ([String.prototype.replace], [String.prototype.split], [Number]);
    - [Effects]: the action's side effects as a trace of events, with the
      outside world (release index, network, processes, file system)
      answering each call as a function of the whole history;
    - [Action]: [getFPMFilename], [installFromSource] and [main], statement
      by statement;
    - what is observed of a run, the vocabulary of the specification
      ([Spec]) and sample hosts and worlds;
    - the properties: the download cascade, the filename resolver, compiler
      discovery, the source build as last resort, finalization and cleanup,
      the version [latest], the version gate;
    - the shape of every run of [main] and what follows from it: what a run
      downloads, touches and registers, the runs that succeed and the runs
      that obtain nothing. *)

From Stdlib Require Import String Ascii List ZArith Bool Lia DecimalString.
Import ListNotations.

Local Open Scope list_scope.
Local Open Scope string_scope.

(* ===================================================================== *)
(** * The JavaScript runtime *)
(* ===================================================================== *)

(** A JavaScript string is modelled by its sequence of code units; the model
    covers the strings whose code units are below 256 (one [ascii] each). *)

Module JS.

(** The string without its first [n] code units. *)
Fixpoint drop (n : nat) (s : string) : string :=
  match n, s with
  | O, _ => s
  | S _, EmptyString => EmptyString
  | S n', String _ s' => drop n' s'
  end.

(** [s.replace(pattern, replacement)] for a string [pattern]: only the
    first occurrence is replaced.  The replacement is inserted as it is,
    which is what JavaScript does when it holds no [$]. *)
Fixpoint replace (pattern replacement s : string) : string :=
  if String.prefix pattern s
  then replacement ++ drop (String.length pattern) s
  else match s with
       | EmptyString => EmptyString
       | String c s' => String c (replace pattern replacement s')
       end.

(** [s.split(separator)] for a separator of one code unit. *)
Fixpoint split (separator : ascii) (s : string) : list string :=
  match s with
  | EmptyString => [EmptyString]
  | String c s' =>
      if Ascii.eqb c separator
      then EmptyString :: split separator s'
      else match split separator s' with
           | [] => [String c EmptyString]
           | part :: parts => String c part :: parts
           end
  end.

(** Truthiness of a string: every string but the empty one. *)
Definition truthy (s : string) : bool :=
  match s with EmptyString => false | String _ _ => true end.

(** ** Numbers

    A Number is an IEEE 754 binary64 value: [Finite s m e] stands for
    [(-1)^s * m * 2^e] with [0 <= m < 2^53] and [-1074 <= e <= 971]. *)
Inductive number : Type :=
| NaN
| Infinity (negative : bool)
| Finite (negative : bool) (m : Z) (e : Z).

(** [n / (d * 2^e)] as a fraction of two integers. *)
Definition scaled (n d e : Z) : Z * Z :=
  if (0 <=? e)%Z then (n, d * 2 ^ e)%Z else (n * 2 ^ (- e), d)%Z.

(** Rounding of the rational [n / d], with [0 <= n] and [0 < d], to the
    nearest binary64, ties to even: the exponent [e2] is the one at which
    the quotient has 53 bits, or the least exponent -1074. *)
Definition round64 (negative : bool) (n d : Z) : number :=
  if (n <=? 0)%Z then Finite negative 0 0 else
  let k := (Z.log2 n - Z.log2 d)%Z in
  let e0 := (k - 52)%Z in
  let '(n0, d0) := scaled n d e0 in
  let e1 := if (n0 / d0 <? 2 ^ 52)%Z then (e0 - 1)%Z else e0 in
  let e2 := Z.max e1 (-1074) in
  let '(n2, d2) := scaled n d e2 in
  let q := (n2 / d2)%Z in
  let r := (n2 mod d2)%Z in
  let up := orb (d2 <? 2 * r)%Z (andb (d2 =? 2 * r)%Z (Z.odd q)) in
  let m := if up then (q + 1)%Z else q in
  let '(m', e') := if (m =? 2 ^ 53)%Z then (2 ^ 52, e2 + 1)%Z else (m, e2) in
  if (971 <? e')%Z then Infinity negative else Finite negative m' e'.

(** White space and line terminators, as far as one byte can hold them:
    TAB, LF, VT, FF, CR, SP and NBSP. *)
Definition isWhiteSpace (c : ascii) : bool :=
  let n := nat_of_ascii c in
  orb (andb (9 <=? n)%nat (n <=? 13)%nat) (orb (n =? 32)%nat (n =? 160)%nat).

Fixpoint trimStart (s : string) : string :=
  match s with
  | EmptyString => EmptyString
  | String c s' => if isWhiteSpace c then trimStart s' else s
  end.

Fixpoint trimEnd (s : string) : string :=
  match s with
  | EmptyString => EmptyString
  | String c s' =>
      match trimEnd s' with
      | EmptyString => if isWhiteSpace c then EmptyString else String c EmptyString
      | t => String c t
      end
  end.

Definition trim (s : string) : string := trimEnd (trimStart s).

(** The value of a digit in the given base, when it is one. *)
Definition digitValue (base : Z) (c : ascii) : option Z :=
  let n := Z.of_nat (nat_of_ascii c) in
  let v := if andb (48 <=? n)%Z (n <=? 57)%Z then (n - 48)%Z
           else if andb (97 <=? n)%Z (n <=? 102)%Z then (n - 87)%Z
           else if andb (65 <=? n)%Z (n <=? 70)%Z then (n - 55)%Z
           else 99%Z in
  if (v <? base)%Z then Some v else None.

(** Reads the longest run of digits at the head of [s]: the accumulated
    value, the number of digits read and what is left of the string. *)
Fixpoint digits (base acc : Z) (count : nat) (s : string) : Z * nat * string :=
  match s with
  | EmptyString => (acc, count, s)
  | String c s' =>
      match digitValue base c with
      | Some v => digits base (acc * base + v)%Z (S count) s'
      | None => (acc, count, s)
      end
  end.

(** [0x..], [0o..] and [0b..] literals: at least one digit and nothing
    after the digits. *)
Definition nonDecimal (base : Z) (s : string) : number :=
  match digits base 0 0 s with
  | (v, S _, EmptyString) => round64 false v 1
  | _ => NaN
  end.

(** The exponent part of a decimal literal: absent, or [e]/[E], an
    optional sign and at least one digit, with nothing after it. *)
Definition exponentPart (s : string) : option Z :=
  match s with
  | EmptyString => Some 0%Z
  | String c s' =>
      if orb (Ascii.eqb c "e") (Ascii.eqb c "E") then
        let '(neg, s'') :=
          match s' with
          | String "-" t => (true, t)
          | String "+" t => (false, t)
          | _ => (false, s')
          end in
        match digits 10 0 0 s'' with
        | (v, S _, EmptyString) => Some (if neg then (- v)%Z else v)
        | _ => None
        end
      else None
  end.

(** [StrUnsignedDecimalLiteral]: [Infinity], or digits with an optional
    fraction and an optional exponent. *)
Definition unsignedDecimal (negative : bool) (s : string) : number :=
  if String.eqb s "Infinity" then Infinity negative else
  let '(ip, n1, r1) := digits 10 0 0 s in
  let '(mant, n2, r2) :=
    match r1 with
    | String "." t => digits 10 ip 0 t
    | _ => (ip, O, r1)
    end in
  match (n1 + n2)%nat, exponentPart r2 with
  | S _, Some ex =>
      let e10 := (ex - Z.of_nat n2)%Z in
      if (0 <=? e10)%Z then round64 negative (mant * 10 ^ e10) 1
      else round64 negative mant (10 ^ (- e10))
  | _, _ => NaN
  end.

(** [Number(s)] on a string, that is [StringToNumber]. *)
Definition Number (s : string) : number :=
  match trim s with
  | EmptyString => Finite false 0 0
  | String "0" (String "x" t) | String "0" (String "X" t) => nonDecimal 16 t
  | String "0" (String "o" t) | String "0" (String "O" t) => nonDecimal 8 t
  | String "0" (String "b" t) | String "0" (String "B" t) => nonDecimal 2 t
  | String "-" t => unsignedDecimal true t
  | String "+" t => unsignedDecimal false t
  | t => unsignedDecimal false t
  end.

(** [x === 0] for an array element [x] that is a Number or, past the end
    of the array, [undefined] ([None]).  Both zeros are equal to [0]. *)
Definition strictEqualsZero (x : option number) : bool :=
  match x with
  | Some (Finite _ m _) => (m =? 0)%Z
  | _ => false
  end.

(** [x < 9], with [undefined] converted to [NaN], which compares false. *)
Definition lessThanNine (x : option number) : bool :=
  match x with
  | Some (Finite negative m e) =>
      if negative then true
      else if (0 <=? e)%Z then (m * 2 ^ e <? 9)%Z else (m <? 9 * 2 ^ (- e))%Z
  | Some (Infinity negative) => negative
  | _ => false
  end.

End JS.

(* ===================================================================== *)
(** * Side effects *)
(* ===================================================================== *)

Module Effects.

(** How an awaited promise settles: with a value, or with an error whose
    [message] is given. *)
Inductive response : Type :=
| Resolved (value : string)
| Rejected (message : string).

(** The options [exec.exec] is called with in this program. *)
Record execOptions : Type := {
  silent : bool;
  cwd : option string;
  FC : option string   (* [env: {...process.env, FC: ...}] *)
}.

Definition noOptions : execOptions :=
  {| silent := false; cwd := None; FC := None |}.

(** The asynchronous calls to the outside world. *)
Inductive call : Type :=
| LatestRelease (token : string)      (* octokit: GET /repos/fortran-lang/fpm/releases/latest *)
| DownloadTool (url : string)         (* tc.downloadTool *)
| ExtractTar (file dest : string)     (* tc.extractTar *)
| Exec (commandLine : string) (args : list string) (options : execOptions)
| Mv (source dest : string)           (* io.mv *)
| MkdirP (dir : string)               (* io.mkdirP *)
| RmRF (dir : string).                (* io.rmRF *)

(** What a run leaves behind, in order. *)
Inductive event : Type :=
| ConsoleLog (message : string)
| SetFailed (message : string)        (* core.setFailed *)
| AddPath (dir : string)              (* core.addPath *)
| Await (c : call) (r : response).

Definition trace : Type := list event.
Bind Scope list_scope with trace.

(** The outside world: its answer to a call may depend on everything that
    happened before. *)
Definition world : Type := trace -> call -> response.

Inductive outcome (A : Type) : Type :=
| Returned (a : A)
| Thrown (message : string).
Arguments Returned {A} a.
Arguments Thrown {A} message.

(** A computation reads the world and the history so far, and gives its
    outcome and the events it added. *)
Definition M (A : Type) : Type := world -> trace -> outcome A * trace.

Definition ret {A} (a : A) : M A := fun _ _ => (Returned a, []).

Definition bind {A B} (m : M A) (f : A -> M B) : M B :=
  fun w h =>
    match m w h with
    | (Returned a, es) => let (r, es') := f a w (h ++ es)%list in (r, (es ++ es')%list)
    | (Thrown e, es) => (Thrown e, es)
    end.

Definition throw {A} (message : string) : M A := fun _ _ => (Thrown message, []).

(** [try { m } catch (error) { handler error.message }] *)
Definition tryCatch {A} (m : M A) (handler : string -> M A) : M A :=
  fun w h =>
    match m w h with
    | (Returned a, es) => (Returned a, es)
    | (Thrown e, es) => let (r, es') := handler e w (h ++ es)%list in (r, (es ++ es')%list)
    end.

Definition emit (e : event) : M unit := fun _ _ => (Returned tt, [e]).

(** [await c]: the world answers, the answer is recorded, a rejection is
    thrown. *)
Definition await (c : call) : M string :=
  fun w h =>
    let r := w h c in
    (match r with Resolved v => Returned v | Rejected e => Thrown e end,
     [Await c r]).

Definition run {A} (m : M A) (w : world) : outcome A * trace := m w [].

End Effects.

Import Effects.

Declare Scope js_scope.
Delimit Scope js_scope with js.
Notation "x <- m ;; k" := (bind m (fun x => k))
  (at level 61, m at next level, right associativity) : js_scope.
Notation "m ;; k" := (bind m (fun _ => k))
  (at level 61, right associativity) : js_scope.
Local Open Scope js_scope.

(* ===================================================================== *)
(** * The action *)
(* ===================================================================== *)

(** The inputs [core.getInput] reads. *)
Record Inputs : Type := {
  github_token : string;
  fpm_version : string;
  fpm_repository : string
}.

(** What the program reads of the host: [process.platform], [os.arch()] and
    three environment variables. *)
Record Process : Type := {
  platform : string;
  arch : string;
  RUNNER_TEMP : option string;
  HOME : option string;
  USERPROFILE : option string
}.

(** The two functions of Node's [path] module that are used.  They are pure
    and depend on the host; the program is studied for any of them. *)
Record Path : Type := {
  dirname : string -> string;
  join : string -> string -> string
}.

Module Action.

Definition console_log (message : string) : M unit := emit (ConsoleLog message).
Definition setFailed (message : string) : M unit := emit (SetFailed message).
Definition addPath (dir : string) : M unit := emit (AddPath dir).
Definition downloadTool (url : string) : M string := await (DownloadTool url).

(** [a || b] on an environment variable: [b] when [a] is undefined or
    empty. *)
Definition orElse (a : option string) (b : string) : string :=
  match a with
  | Some (String c s) => String c s
  | _ => b
  end.

(** The line feed of a [\n] escape and the double quote. *)
Definition LF : string := String (ascii_of_nat 10) "".
Definition DQ : string := String (ascii_of_nat 34) "".

(** A template literal prints [undefined] for an undefined value. *)
Definition display (x : option string) : string :=
  match x with Some s => s | None => "undefined" end.

(** [`${n}`] for a non-negative integer. *)
Definition Number_toString (n : nat) : string :=
  NilEmpty.string_of_uint (Nat.to_uint n).

(** Lines 153-185. The default value of [compiler] is the empty string. *)
Definition getFPMFilename (fpmVersion platform arch compiler : string) : M string :=
  let filename := "fpm-" in
  let filename := filename ++ (JS.replace "v" "" fpmVersion ++ "-") in
  let fpmArch := "x86_64" in
  let fpmArch :=
    if arch =? "arm64" then "arm64"
    else if arch =? "x64" then "x86_64"
    else fpmArch in
  filename <-
    (if platform =? "linux" then ret (filename ++ ("linux-" ++ fpmArch))
     else if platform =? "darwin" then ret (filename ++ ("macos-" ++ fpmArch))
     else if platform =? "win32" then ret (filename ++ ("windows-" ++ fpmArch))
     else (setFailed "Unknown platform" ;; ret filename)) ;;
  let filename := if JS.truthy compiler then filename ++ ("-" ++ compiler) else filename in
  let filename := if platform =? "win32" then filename ++ ".exe" else filename in
  ret filename.

(** Lines 190-200. *)
Definition getLatestReleaseVersion (token : string) : M string :=
  await (LatestRelease token).

(** Line 65. *)
Definition compilers : list string :=
  ["gcc-10"; "gcc-11"; "gcc-12"; "gcc-13"; "gcc-14"].

(** Lines 91-93. *)
Definition isOldVersion (fpmVersion : string) : bool :=
  let versionNum := JS.replace "v" "" fpmVersion in
  let versionParts := map JS.Number (JS.split "." versionNum) in
  JS.strictEqualsZero (nth_error versionParts 0)
  && JS.lessThanNine (nth_error versionParts 1).

(** How a block of [main] ends: control goes on to the next statement
    with the current value of [fpmPath], or [main] returns. *)
Inductive completion : Type :=
| Continue (fpmPath : option string)
| Return.

Section Host.

Variable process : Process.
Variable path : Path.

(** Lines 226-236: the loop over the versioned compilers, with its
    [break].  The result is [Some gfortranCmd] when [foundVersioned]. *)
Fixpoint probeVersioned (versions : list nat) : M (option string) :=
  match versions with
  | [] => ret None
  | ver :: rest =>
      found <- tryCatch
                 (await (Exec "which" ["gfortran-" ++ Number_toString ver]
                              {| silent := true; cwd := None; FC := None |}) ;;
                  let gfortranCmd := "gfortran-" ++ Number_toString ver in
                  console_log ("Found " ++ gfortranCmd) ;;
                  ret (Some gfortranCmd))
                 (fun _ => ret None) ;;
      match found with
      | Some gfortranCmd => ret (Some gfortranCmd)
      | None => probeVersioned rest
      end
  end.

(** Lines 212-248.  [None] stands for the [return] of line 246. *)
Definition discoverCompiler : M (option string) :=
  let gfortranCmd := "gfortran" in
  foundGfortran <- tryCatch
                     (await (Exec "which" ["gfortran"]
                                  {| silent := true; cwd := None; FC := None |}) ;;
                      ret true)
                     (fun _ => ret false) ;;
  if negb foundGfortran || true then
    versioned <- probeVersioned [13; 12; 11; 10]%nat ;;
    let foundVersioned := match versioned with Some _ => true | None => false end in
    let gfortranCmd := match versioned with Some cmd => cmd | None => gfortranCmd end in
    if negb foundVersioned && negb foundGfortran then
      setFailed
        ("gfortran is required to build fpm from source on macOS ARM64." ++ LF ++
         "Please install gcc version 10-13 before running this action, for example:" ++ LF ++
         "  - name: Install gfortran" ++ LF ++
         "    run: brew install gcc@13" ++ LF ++
         "Or use fortran-lang/setup-fortran to install a Fortran compiler.") ;;
      ret None
    else ret (Some gfortranCmd)
  else ret (Some gfortranCmd).

(** Lines 250-290. *)
Definition buildAndInstall (fpmVersion fpmRepo gfortranCmd : string) : M unit :=
  let versionNumber := JS.replace "v" "" fpmVersion in
  let tarballUrl := fpmRepo ++ "/archive/refs/tags/" ++ fpmVersion ++ ".tar.gz" in
  console_log ("Downloading fpm source from: " ++ tarballUrl) ;;
  tarballPath <- downloadTool tarballUrl ;;
  let buildDir := join path (orElse (RUNNER_TEMP process) "/tmp") "fpm-build" in
  await (MkdirP buildDir) ;;
  extractDir <- await (ExtractTar tarballPath buildDir) ;;
  console_log ("Extracted to: " ++ extractDir) ;;
  let fpmSourceDir := join path buildDir ("fpm-" ++ versionNumber) in
  console_log "Installing fpm from source using install.sh..." ;;
  let installPrefix :=
    join path (orElse (HOME process) (orElse (USERPROFILE process) "/tmp")) ".local" in
  let installDir := join path installPrefix "bin" in
  await (MkdirP installDir) ;;
  let installScript := join path fpmSourceDir "install.sh" in
  await (Exec "bash" [installScript; "--prefix=" ++ installPrefix]
              {| silent := false; cwd := Some fpmSourceDir; FC := Some gfortranCmd |}) ;;
  addPath installDir ;;
  console_log ("fpm installed and added to path at " ++ installDir) ;;
  await (RmRF buildDir) ;;
  ret tt.

(** Lines 206-298. *)
Definition installFromSource (fpmVersion fpmRepo : string) : M unit :=
  tryCatch
    (found <- discoverCompiler ;;
     match found with
     | None => ret tt
     | Some gfortranCmd => buildAndInstall fpmVersion fpmRepo gfortranCmd
     end)
    (fun message => setFailed ("Failed to install fpm from source: " ++ message)).

(** Lines 69-83: the loop over the compiler suffixes, with its [break].
    The result is [Some fpmPath] when [success]. *)
Fixpoint tryCompilers (fpmVersion fetchPath : string) (compilers : list string)
  : M (option string) :=
  match compilers with
  | [] => ret None
  | compiler :: rest =>
      filenameWithSuffix <-
        getFPMFilename fpmVersion (platform process) (arch process) compiler ;;
      console_log ("Trying to fetch compiler-built fpm: " ++ filenameWithSuffix) ;;
      got <- tryCatch
               (fpmPath <- downloadTool (fetchPath ++ filenameWithSuffix) ;;
                ret (Some fpmPath))
               (fun _ =>
                  console_log ("  -> Failed to download " ++ filenameWithSuffix) ;;
                  ret None) ;;
      match got with
      | Some fpmPath => ret (Some fpmPath)
      | None => tryCompilers fpmVersion fetchPath rest
      end
  end.

(** Lines 56-83 on their own: the first download and, when it throws,
    the loop.  [None] when [success] is false. *)
Definition acquire (fpmVersion fetchPath : string) : M (option string) :=
  tryCatch
    (filename <- getFPMFilename fpmVersion (platform process) (arch process) "" ;;
     fpmPath <- downloadTool (fetchPath ++ filename) ;;
     ret (Some fpmPath))
    (fun _ => tryCompilers fpmVersion fetchPath compilers).

(** Lines 85-109: what is done when [success] is false. *)
Definition noPrebuilt (fpmVersion fpmRepo : string) : M completion :=
  if (platform process =? "darwin") && (arch process =? "arm64") then
    console_log "No pre-built ARM64 binary found, falling back to building from source" ;;
    if isOldVersion fpmVersion then
      setFailed
        ("Building fpm " ++ fpmVersion ++ " from source is not supported on macOS ARM64." ++ LF ++
         "Please use fpm v0.9.0 or later, which has a working install.sh script." ++ LF ++
         "For example, set fpm-version to " ++ DQ ++ "v0.9.0" ++ DQ ++ ", " ++
         DQ ++ "v0.10.1" ++ DQ ++ " or " ++ DQ ++ "latest" ++ DQ ++ ".") ;;
      ret Return
    else
      installFromSource fpmVersion fpmRepo ;;
      ret Return
  else
    setFailed "Error while trying to fetch fpm - please check that a version exists at the above release url." ;;
    ret (Continue None).

(** Lines 56-110: the [try] with the first download and its [catch]. *)
Definition download (fpmVersion fpmRepo fetchPath : string) : M completion :=
  tryCatch
    (filename <- getFPMFilename fpmVersion (platform process) (arch process) "" ;;
     fpmPath <- downloadTool (fetchPath ++ filename) ;;
     ret (Continue (Some fpmPath)))
    (fun _ =>
       success <- tryCompilers fpmVersion fetchPath compilers ;;
       match success with
       | Some fpmPath => ret (Continue (Some fpmPath))
       | None => noPrebuilt fpmVersion fpmRepo
       end).

(** Lines 112-135.  [path.dirname] throws a [TypeError] on [undefined]. *)
Definition finalize (fpmPath : option string) : M unit :=
  console_log (display fpmPath) ;;
  match fpmPath with
  | None =>
      throw ("The " ++ DQ ++ "path" ++ DQ ++ " argument must be of type string. Received undefined")
  | Some fpmPath =>
      let downloadDir := dirname path fpmPath in
      (if (platform process =? "linux") || (platform process =? "darwin")
       then await (Exec ("chmod u+x " ++ fpmPath) [] noOptions) ;; ret tt
       else ret tt) ;;
      (if platform process =? "win32"
       then await (Mv fpmPath (downloadDir ++ "/" ++ "fpm.exe"))
       else await (Mv fpmPath (downloadDir ++ "/" ++ "fpm"))) ;;
      addPath downloadDir ;;
      console_log ("fpm added to path at " ++ downloadDir)
  end.

(** Lines 25-41: the value of [fpmVersion] after the block. *)
Definition resolveVersion (token fpmVersion : string) : M string :=
  if fpmVersion =? "latest" then
    (if token =? "none"
     then setFailed "To fetch the latest fpm version, please supply a github token. Alternatively you can specify the fpm release version manually."
     else ret tt) ;;
    tryCatch
      (getLatestReleaseVersion token)
      (fun _ =>
         setFailed "Error while querying the latest fpm release version - please check your github token." ;;
         ret fpmVersion)
  else ret fpmVersion.

(** Lines 11-142. *)
Definition main (input : Inputs) : M unit :=
  tryCatch
    (let token := github_token input in
     let fpmVersion := fpm_version input in
     console_log ("fpm-version: " ++ fpmVersion) ;;
     let fpmRepo := fpm_repository input in
     console_log ("fpm-repository: " ++ fpmRepo) ;;
     fpmVersion <- resolveVersion token fpmVersion ;;
     let arch := arch process in
     console_log ("System architecture: " ++ arch) ;;
     console_log ("This platform is " ++ platform process) ;;
     let fetchPath := fpmRepo ++ "/releases/download/" ++ fpmVersion ++ "/" in
     filename <- getFPMFilename fpmVersion (platform process) arch "" ;;
     console_log ("Fetching fpm from " ++ fetchPath ++ filename) ;;
     c <- download fpmVersion fpmRepo fetchPath ;;
     match c with
     | Return => ret tt
     | Continue fpmPath => finalize fpmPath
     end)
    (fun message => setFailed message).

End Host.

End Action.

Import Action.

(* ===================================================================== *)
(** * Observing a run *)
(* ===================================================================== *)

(** A world that ignores the history. *)
Definition stub (f : call -> response) : world := fun _ c => f c.

(** The filename [getFPMFilename] returns: its value does not depend on the
    world, as [getFPMFilename_run] shows. *)
Definition filenameOf (fpmVersion platform arch compiler : string) : string :=
  match fst (getFPMFilename fpmVersion platform arch compiler (stub (fun _ => Resolved "")) []) with
  | Returned filename => filename
  | Thrown _ => ""
  end.

(** The platforms [getFPMFilename] knows. *)
Definition knownPlatform (platform : string) : bool :=
  (platform =? "linux") || (platform =? "darwin") || (platform =? "win32").

(** The events [getFPMFilename] adds. *)
Definition unknownPlatform (platform : string) : trace :=
  if knownPlatform platform then [] else [SetFailed "Unknown platform"].

(** The filenames lines 59 and 72 compute, in the order the cascade reaches
    them. *)
Definition candidates (fpmVersion platform arch : string) : list string :=
  filenameOf fpmVersion platform arch ""
  :: map (filenameOf fpmVersion platform arch) compilers.

(** The downloads of a trace: the url asked for and how it settled. *)
Fixpoint downloads (t : trace) : list (string * response) :=
  match t with
  | [] => []
  | Await (DownloadTool url) r :: t' => (url, r) :: downloads t'
  | _ :: t' => downloads t'
  end.

(** The awaited calls of a trace, in order. *)
Fixpoint calls (t : trace) : list call :=
  match t with
  | [] => []
  | Await c _ :: t' => c :: calls t'
  | _ :: t' => calls t'
  end.

(** The awaited calls of a trace with the way they settled. *)
Fixpoint awaited (t : trace) : list (call * response) :=
  match t with
  | [] => []
  | Await c r :: t' => (c, r) :: awaited t'
  | _ :: t' => awaited t'
  end.

(** The messages passed to [core.setFailed]. *)
Fixpoint failures (t : trace) : list string :=
  match t with
  | [] => []
  | SetFailed message :: t' => message :: failures t'
  | _ :: t' => failures t'
  end.

(** The directories passed to [core.addPath]. *)
Fixpoint paths (t : trace) : list string :=
  match t with
  | [] => []
  | AddPath dir :: t' => dir :: paths t'
  | _ :: t' => paths t'
  end.

(** The compiler probes of a trace: [which <name>] and how it settled. *)
Fixpoint probes (t : trace) : list (string * response) :=
  match t with
  | [] => []
  | Await (Exec "which" [name] _) r :: t' => (name, r) :: probes t'
  | _ :: t' => probes t'
  end.

(** Attempts that were rejected, calls that resolved. *)
Definition rejected (attempt : string * response) : Prop :=
  match snd attempt with Rejected _ => True | Resolved _ => False end.

Definition resolved (a : call * response) : Prop :=
  match snd a with Resolved _ => True | Rejected _ => False end.

(** A cascade over the names [names] (urls to download, commands to
    probe): the attempts made, in order, and the name that resolved with its
    value, if any.  A rejected attempt is followed by the attempt of the
    next name; a resolved one ends the cascade. *)
Inductive cascade : list string -> list (string * response) -> option (string * string) -> Prop :=
| cascade_exhausted : cascade [] [] None
| cascade_hit name names value :
    cascade (name :: names) [(name, Resolved value)] (Some (name, value))
| cascade_miss name names message attempts hit :
    cascade names attempts hit ->
    cascade (name :: names) ((name, Rejected message) :: attempts) hit.

(** Kinds of calls. *)
Definition isMv (c : call) : bool :=
  match c with Mv _ _ => true | _ => false end.

Definition isRmRF (c : call) : bool :=
  match c with RmRF _ => true | _ => false end.

Definition isChmod (c : call) : bool :=
  match c with Exec commandLine _ _ => String.prefix "chmod" commandLine | _ => false end.

Definition isWhich (c : call) : bool :=
  match c with Exec commandLine _ _ => commandLine =? "which" | _ => false end.

(** The source build pipeline is entered when its first statement, the
    probe of line 216, is executed. *)
Definition sourceBuildEntered (t : trace) : bool :=
  existsb isWhich (calls t).

(** The events of the download cascade: downloads, log lines and the
    failure the filename resolver reports. *)
Definition cascadeEvent (e : event) : bool :=
  match e with
  | Await (DownloadTool _) _ => true
  | ConsoleLog _ => true
  | SetFailed message => message =? "Unknown platform"
  | _ => false
  end.

(* ===================================================================== *)
(** * Messages *)
(* ===================================================================== *)

(** The remediation text of lines 239-245. *)
Definition compilerNotFound : string :=
  "gfortran is required to build fpm from source on macOS ARM64." ++ LF ++
  "Please install gcc version 10-13 before running this action, for example:" ++ LF ++
  "  - name: Install gfortran" ++ LF ++
  "    run: brew install gcc@13" ++ LF ++
  "Or use fortran-lang/setup-fortran to install a Fortran compiler.".

(** The message of lines 96-100. *)
Definition sourceBuildIneligible (fpmVersion : string) : string :=
  "Building fpm " ++ fpmVersion ++ " from source is not supported on macOS ARM64." ++ LF ++
  "Please use fpm v0.9.0 or later, which has a working install.sh script." ++ LF ++
  "For example, set fpm-version to " ++ DQ ++ "v0.9.0" ++ DQ ++ ", " ++
  DQ ++ "v0.10.1" ++ DQ ++ " or " ++ DQ ++ "latest" ++ DQ ++ ".".

(** The message of line 108. *)
Definition fetchFailed : string :=
  "Error while trying to fetch fpm - please check that a version exists at the above release url.".

(** The message of the [TypeError] that [path.dirname(undefined)] throws. *)
Definition dirnameOfUndefined : string :=
  "The " ++ DQ ++ "path" ++ DQ ++ " argument must be of type string. Received undefined".

(** The messages of lines 28 and 37. *)
Definition tokenMissing : string :=
  "To fetch the latest fpm version, please supply a github token. Alternatively you can specify the fpm release version manually.".
Definition latestQueryFailed : string :=
  "Error while querying the latest fpm release version - please check your github token.".

(* ===================================================================== *)
(** * The stages of the pipeline and of the finalization *)
(* ===================================================================== *)

(** The build workspace and the install directory, lines 258 and 271-272. *)
Definition buildDir (process : Process) (path : Path) : string :=
  join path (orElse (RUNNER_TEMP process) "/tmp") "fpm-build".
Definition installPrefix (process : Process) (path : Path) : string :=
  join path (orElse (HOME process) (orElse (USERPROFILE process) "/tmp")) ".local".
Definition installDir (process : Process) (path : Path) : string :=
  join path (installPrefix process path) "bin".

(** The six awaited calls of lines 250-290, for a tarball downloaded to
    [tarballPath]. *)
Definition stages (process : Process) (path : Path)
           (fpmVersion fpmRepo gfortranCmd tarballPath : string) : list call :=
  let fpmSourceDir :=
    join path (buildDir process path) ("fpm-" ++ JS.replace "v" "" fpmVersion) in
  [DownloadTool (fpmRepo ++ "/archive/refs/tags/" ++ fpmVersion ++ ".tar.gz");
   MkdirP (buildDir process path);
   ExtractTar tarballPath (buildDir process path);
   MkdirP (installDir process path);
   Exec "bash" [join path fpmSourceDir "install.sh"; "--prefix=" ++ installPrefix process path]
        {| silent := false; cwd := Some fpmSourceDir; FC := Some gfortranCmd |};
   RmRF (buildDir process path)].

(** The two steps after a download, lines 116-131. *)
Definition finalSteps (process : Process) (path : Path) (fpmPath : string) : list call :=
  ((if (platform process =? "linux") || (platform process =? "darwin")
    then [Exec ("chmod u+x " ++ fpmPath) [] noOptions] else [])
   ++ [Mv fpmPath (dirname path fpmPath ++ "/"
                   ++ (if platform process =? "win32" then "fpm.exe" else "fpm"))])%list.

(* ===================================================================== *)
(** * The shape of a run of [main] *)
(* ===================================================================== *)

(** The events of [main] before the download statement, lines 19-52, for
    the version [fpmVersion] that lines 25-41 leave and the events [tr] of
    these lines. *)
Definition preamble (process : Process) (input : Inputs) (fpmVersion : string)
           (tr : trace) : trace :=
  ([ConsoleLog ("fpm-version: " ++ fpm_version input);
    ConsoleLog ("fpm-repository: " ++ fpm_repository input)]
   ++ tr
   ++ [ConsoleLog ("System architecture: " ++ arch process);
       ConsoleLog ("This platform is " ++ platform process)]
   ++ unknownPlatform (platform process)
   ++ [ConsoleLog ("Fetching fpm from "
                   ++ (fpm_repository input ++ "/releases/download/" ++ fpmVersion ++ "/")
                   ++ filenameOf fpmVersion (platform process) (arch process) "")])%list.

(** What follows the cascade, lines 85-141, after the history [h], for what
    the cascade obtained. *)
Inductive ending (process : Process) (path : Path) (fpmVersion fpmRepo : string)
          (w : world) (h : trace) : option string -> trace -> Prop :=
| ending_finalized fpmPath tf :
    finalize process path (Some fpmPath) w h = (Returned tt, tf) ->
    ending process path fpmVersion fpmRepo w h (Some fpmPath) tf
| ending_finalize_failed fpmPath message tf :
    finalize process path (Some fpmPath) w h = (Thrown message, tf) ->
    ending process path fpmVersion fpmRepo w h (Some fpmPath) (tf ++ [SetFailed message])%list
| ending_ineligible :
    platform process = "darwin" -> arch process = "arm64" ->
    isOldVersion fpmVersion = true ->
    ending process path fpmVersion fpmRepo w h None
           [ConsoleLog "No pre-built ARM64 binary found, falling back to building from source";
            SetFailed (sourceBuildIneligible fpmVersion)]
| ending_source_build ti :
    platform process = "darwin" -> arch process = "arm64" ->
    isOldVersion fpmVersion = false ->
    installFromSource process path fpmVersion fpmRepo w
      (h ++ [ConsoleLog "No pre-built ARM64 binary found, falling back to building from source"])%list
    = (Returned tt, ti) ->
    ending process path fpmVersion fpmRepo w h None
           (ConsoleLog "No pre-built ARM64 binary found, falling back to building from source"
            :: ti)
| ending_no_fallback :
    (platform process =? "darwin") && (arch process =? "arm64") = false ->
    ending process path fpmVersion fpmRepo w h None
           [SetFailed fetchFailed; ConsoleLog "undefined"; SetFailed dirnameOfUndefined].

Definition isLatestRelease (c : call) : bool :=
  match c with LatestRelease _ => true | _ => false end.

Definition isDownloadTool (c : call) : bool :=
  match c with DownloadTool _ => true | _ => false end.

(** [s.endsWith(suffix)]: a tail of [s] is [suffix]. *)
Fixpoint endsWith (suffix s : string) : bool :=
  (s =? suffix)
  || match s with
     | EmptyString => false
     | String _ s' => endsWith suffix s'
     end.

(** The last code unit of a string. *)
Fixpoint lastChar (s : string) : option ascii :=
  match s with
  | EmptyString => None
  | String c EmptyString => Some c
  | String _ s' => lastChar s'
  end.

(** The url of the source archive, line 253. *)
Definition tarballUrl (fpmVersion fpmRepo : string) : string :=
  fpmRepo ++ "/archive/refs/tags/" ++ fpmVersion ++ ".tar.gz".

(* ===================================================================== *)
(** * Versions *)
(* ===================================================================== *)

(** Whether a code unit occurs in a string. *)
Fixpoint contains (c : ascii) (s : string) : bool :=
  match s with
  | EmptyString => false
  | String c' s' => Ascii.eqb c' c || contains c s'
  end.

(** The versions that start with a [v] or hold no [v] at all. *)
Definition vOnlyLeading (version : string) : bool :=
  match version with
  | EmptyString => true
  | String c rest => Ascii.eqb c "v" || negb (contains "v" version)
  end.

(** The [compiler] argument a call passes for an optional tag. *)
Definition tagArgument (tag : option string) : string :=
  match tag with Some t => t | None => "" end.

(** Decimal digits, strings of decimal digits and their value. *)
Definition isDigit (c : ascii) : bool :=
  ((48 <=? nat_of_ascii c) && (nat_of_ascii c <=? 57))%nat.

Fixpoint digitsOnly (s : string) : bool :=
  match s with
  | EmptyString => true
  | String c s' => isDigit c && digitsOnly s'
  end.

Fixpoint decimal (acc : Z) (s : string) : Z :=
  match s with
  | EmptyString => acc
  | String c s' => decimal (acc * 10 + (Z.of_nat (nat_of_ascii c) - 48)) s'
  end.

(** The versions [[v]<major>.<minor>] and [[v]<major>.<minor>.<rest>]. *)
Definition numbered (leadingV : bool) (major minor : string) (rest : option string) : string :=
  (if leadingV then "v" else "") ++ major ++ "." ++ minor
  ++ match rest with Some r => "." ++ r | None => "" end.

(* ===================================================================== *)
(** * The specification's vocabulary *)
(* ===================================================================== *)

Module Spec.

(** The version with a leading [v] (if any) stripped. *)
Definition stripLeadingV (version : string) : string :=
  match version with
  | String "v" rest => rest
  | _ => version
  end.

(** The os-name token of a platform. *)
Definition osName (platform : string) : option string :=
  if platform =? "linux" then Some "linux"
  else if platform =? "darwin" then Some "macos"
  else if platform =? "win32" then Some "windows"
  else None.

(** [arm64] for [arm64], [x86_64] for every other value. *)
Definition archName (arch : string) : string :=
  if arch =? "arm64" then "arm64" else "x86_64".

(** [fpm-<version-no-v>-<os-name>-<arch-name>[-<compiler-tag>][.exe]] *)
Definition artifactFilename (version os A : string) (tag : option string)
           (windows : bool) : string :=
  "fpm-" ++ stripLeadingV version ++ "-" ++ os ++ "-" ++ A
  ++ match tag with Some t => "-" ++ t | None => "" end
  ++ (if windows then ".exe" else "").

(** The compiler tag set, ascending. *)
Definition compilerTags : list string :=
  ["gcc-10"; "gcc-11"; "gcc-12"; "gcc-13"; "gcc-14"].

(** The version gate in the specification's words: strip a leading [v],
    split on [.], convert the first two components to numbers; source
    build is refused when major = 0 and minor < 9 and permitted otherwise,
    also when fewer than two numbers come out. *)
Definition supportsSourceBuild (version : string) : bool :=
  let parts := map JS.Number (JS.split "." (stripLeadingV version)) in
  negb (JS.strictEqualsZero (nth_error parts 0) && JS.lessThanNine (nth_error parts 1)).

End Spec.

(* ===================================================================== *)
(** * Sample hosts and worlds *)
(* ===================================================================== *)

(** POSIX-like path functions, without the normalisation Node performs.
    [beforeLastSlash] is what stands before the last [/] of a path, if it
    has one. *)
Fixpoint beforeLastSlash (s : string) : option string :=
  match s with
  | EmptyString => None
  | String c s' =>
      match beforeLastSlash s' with
      | Some d => Some (String c d)
      | None => if Ascii.eqb c "/" then Some EmptyString else None
      end
  end.

Definition dirname_simple (s : string) : string :=
  match beforeLastSlash s with
  | None => "."
  | Some EmptyString => "/"
  | Some d => d
  end.

Definition posix : Path :=
  {| dirname := dirname_simple; join := fun a b => a ++ "/" ++ b |}.

(** Three hosts. *)
Definition macArm : Process :=
  {| platform := "darwin"; arch := "arm64"; RUNNER_TEMP := Some "/tmp/runner";
     HOME := Some "/Users/runner"; USERPROFILE := None |}.

Definition linux64 : Process :=
  {| platform := "linux"; arch := "x64"; RUNNER_TEMP := Some "/tmp/runner";
     HOME := Some "/home/runner"; USERPROFILE := None |}.

Definition freebsd : Process :=
  {| platform := "freebsd"; arch := "x64"; RUNNER_TEMP := None;
     HOME := None; USERPROFILE := None |}.

(** The inputs of the sample runs: the upstream repository, no token. *)
Definition upstream : string := "https://github.com/fortran-lang/fpm".

Definition request (fpmVersion : string) : Inputs :=
  {| github_token := "none"; fpm_version := fpmVersion; fpm_repository := upstream |}.

(** Whether a url is that of a release asset. *)
Definition isReleaseAsset (url : string) : bool :=
  match String.index 0 "/releases/download/" url with Some _ => true | None => false end.

(** A world without prebuilt binaries, where only [gfortran-12] is
    installed and everything else succeeds. *)
Definition sourceOnly : world :=
  stub (fun c =>
          match c with
          | DownloadTool url =>
              if isReleaseAsset url then Rejected "404" else Resolved "/tmp/dl/source.tar.gz"
          | Exec "which" ["gfortran-12"] _ => Resolved "0"
          | Exec "which" _ _ => Rejected "exit code 1"
          | _ => Resolved ""
          end).

(** The same world, where the install script fails. *)
Definition installFails : world :=
  fun h c =>
    match c with
    | Exec "bash" _ _ => Rejected "exit code 2"
    | _ => sourceOnly h c
    end.

(** The same world, where only the removal of the workspace fails. *)
Definition cleanupFails : world :=
  fun h c =>
    match c with
    | RmRF _ => Rejected "EBUSY"
    | _ => sourceOnly h c
    end.

(** A world whose release index answers [v0.10.1], whatever the token, and
    where every download succeeds. *)
Definition indexAnswers : world :=
  stub (fun c =>
          match c with
          | LatestRelease _ => Resolved "v0.10.1"
          | DownloadTool _ => Resolved "/tmp/dl/fpm"
          | _ => Resolved ""
          end).

(** A world whose release index rejects the query and where nothing can be
    downloaded. *)
Definition offline : world := stub (fun _ => Rejected "request failed").

(* ===================================================================== *)
(** * Proof automation *)
(* ===================================================================== *)

(** Unfolds the operations of the monad. *)
Ltac unfold_monad :=
  unfold console_log, setFailed, addPath, downloadTool, getLatestReleaseVersion;
  unfold bind, tryCatch, await, emit, ret, throw.

(** Traces are compared with their appends nested to the right. *)
Ltac norm :=
  cbv beta iota zeta; repeat (progress (rewrite <- ?app_assoc; cbn [app])).

(** Case analysis on every answer of the world, in the order the calls are
    made. *)
Ltac answers w :=
  repeat (cbv beta iota zeta delta [negb orb andb];
          rewrite <- ?app_assoc; cbn [app];
          match goal with
          | |- context [w ?h ?c] => destruct (w h c)
          end).

(** Closes one case of [buildAndInstall_stages]: [n] stages were started. *)
Ltac solve_stage n :=
  eexists _, _, _, n; (split; [reflexivity|]); cbn;
  (split; [reflexivity|]); (split; [reflexivity|]); (split; [reflexivity|]);
  (split; [reflexivity|]);
  first [ split; [reflexivity | repeat constructor]
        | eexists [], _; split; [reflexivity | repeat constructor]
        | eexists [_], _; split; [reflexivity | repeat constructor]
        | eexists [_; _], _; split; [reflexivity | repeat constructor]
        | eexists [_; _; _], _; split; [reflexivity | repeat constructor]
        | eexists [_; _; _; _], _; split; [reflexivity | repeat constructor]
        | eexists [_; _; _; _; _], _; split; [reflexivity | repeat constructor] ].

(* ===================================================================== *)
(** * Running computations *)
(* ===================================================================== *)

Local Arguments String.append : simpl never.

(** The monad laws: [ret] is a left unit and [bind] is associative. *)
Lemma bind_ret {A B} (a : A) (f : A -> M B) w h :
  bind (ret a) f w h = f a w h.
Proof.
  unfold bind, ret. rewrite app_nil_r. destruct (f a w h); reflexivity.
Qed.

Lemma bind_bind {A B C} (m : M A) (f : A -> M B) (g : B -> M C) w h :
  bind (bind m f) g w h = bind m (fun a => bind (f a) g) w h.
Proof.
  unfold bind. destruct (m w h) as [[a|e] es]; [|reflexivity].
  destruct (f a w (h ++ es)%list) as [[b|e] es']; [|reflexivity].
  rewrite <- app_assoc.
  destruct (g b w (h ++ es ++ es')%list) as [r es'']. now rewrite app_assoc.
Qed.

Lemma append_assoc (a b c : string) : (a ++ b) ++ c = a ++ (b ++ c).
Proof.
  induction a as [|x a IH]; [reflexivity|].
  change (String x ((a ++ b) ++ c) = String x (a ++ (b ++ c))). now rewrite IH.
Qed.

Lemma append_nil_r (a : string) : a ++ "" = a.
Proof.
  induction a as [|x a IH]; [reflexivity|].
  change (String x (a ++ "") = String x a). now rewrite IH.
Qed.

Lemma append_nil_l (a : string) : "" ++ a = a.
Proof. reflexivity. Qed.

Lemma append_cons (x : ascii) (a b : string) : String x a ++ b = String x (a ++ b).
Proof. reflexivity. Qed.

(** [getFPMFilename] reads nothing of the world: it returns [filenameOf],
    and reports a failure exactly for a platform it does not know. *)
Lemma getFPMFilename_run fpmVersion platform arch compiler w h :
  getFPMFilename fpmVersion platform arch compiler w h =
  (Returned (filenameOf fpmVersion platform arch compiler),
   if knownPlatform platform then [] else [SetFailed "Unknown platform"]).
Proof.
  unfold filenameOf, getFPMFilename, knownPlatform.
  destruct (platform =? "linux") eqn:E1; [reflexivity|].
  destruct (platform =? "darwin") eqn:E2; [reflexivity|].
  destruct (platform =? "win32") eqn:E3; reflexivity.
Qed.

(** The layout of the filename, component by component. *)
Lemma filenameOf_layout fpmVersion platform arch compiler :
  filenameOf fpmVersion platform arch compiler =
  "fpm-" ++ JS.replace "v" "" fpmVersion ++ "-"
  ++ match Spec.osName platform with
     | Some os => os ++ "-" ++ Spec.archName arch
     | None => ""
     end
  ++ (if JS.truthy compiler then "-" ++ compiler else "")
  ++ (if platform =? "win32" then ".exe" else "").
Proof.
  unfold filenameOf, getFPMFilename, Spec.osName, Spec.archName.
  destruct (String.eqb_spec platform "linux") as [->|N1];
    [|destruct (String.eqb_spec platform "darwin") as [->|N2];
      [|destruct (String.eqb_spec platform "win32") as [->|N3]]];
    destruct (arch =? "arm64"); destruct (arch =? "x64");
    destruct compiler as [|c compiler]; cbn;
    rewrite ?append_assoc, ?append_nil_r; reflexivity.
Qed.

Arguments filenameOf : simpl never.
Arguments knownPlatform : simpl never.

Lemma downloads_app (t1 t2 : trace) :
  downloads (t1 ++ t2) = (downloads t1 ++ downloads t2)%list.
Proof.
  induction t1 as [|e t1 IH]; [reflexivity|].
  destruct e as [| | |[] r]; simpl; rewrite ?IH; reflexivity.
Qed.

Lemma downloads_unknown (platform : string) :
  downloads (unknownPlatform platform) = [].
Proof. unfold unknownPlatform. now destruct (knownPlatform platform). Qed.

Lemma cascadeEvent_unknown (platform : string) :
  forallb cascadeEvent (unknownPlatform platform) = true.
Proof. unfold unknownPlatform. now destruct (knownPlatform platform). Qed.

(** A trace of cascade events holds downloads and nothing else of note. *)
Lemma cascadeEvent_calls (t : trace) :
  forallb cascadeEvent t = true ->
  calls t = map (fun a => DownloadTool (fst a)) (downloads t) /\ paths t = [].
Proof.
  induction t as [|e t IH]; [now split|].
  cbn [forallb]. intros H. apply andb_prop in H. destruct H as [He Ht].
  destruct (IH Ht) as [Hc Hp].
  destruct e as [m|m|d|[] r]; try discriminate; cbn; rewrite ?Hc, ?Hp; now split.
Qed.

Lemma existsb_map_DownloadTool (f : call -> bool) (l : list (string * response)) :
  (forall url, f (DownloadTool url) = false) ->
  existsb f (map (fun a => DownloadTool (fst a)) l) = false.
Proof.
  intros Hf. induction l as [|a l IH]; [reflexivity|]. cbn. now rewrite Hf, IH.
Qed.

(** What a cascade is, read off its attempts. *)
Lemma cascade_in_order names attempts hit :
  cascade names attempts hit ->
  map fst attempts = firstn (List.length attempts) names.
Proof.
  induction 1 as [| |u us m att r _ IH]; cbn; [reflexivity..|]. now rewrite IH.
Qed.

Lemma cascade_first_hit names attempts name value :
  cascade names attempts (Some (name, value)) ->
  exists failed,
    attempts = (failed ++ [(name, Resolved value)])%list /\ Forall rejected failed.
Proof.
  remember (Some (name, value)) as hit eqn:E.
  induction 1 as [| u us p |u us m att r _ IH]; [discriminate| |].
  - injection E as -> ->. exists []. split; [reflexivity | constructor].
  - destruct (IH E) as (failed & -> & Hf).
    exists ((u, Rejected m) :: failed). split; [reflexivity|].
    constructor; [exact I | exact Hf].
Qed.

Lemma cascade_all_failed names attempts :
  cascade names attempts None ->
  Forall rejected attempts /\ map fst attempts = names.
Proof.
  remember None as hit eqn:E.
  induction 1 as [| |u us m att r _ IH]; [now split | discriminate |].
  destruct (IH E) as [Hf Hu]. split; [constructor; [exact I | exact Hf]|].
  cbn. now rewrite Hu.
Qed.

Section Cascade.

Variable process : Process.
Variable path : Path.

(** One turn of the loop of lines 69-83. *)
Lemma tryCompilers_cons fpmVersion fetchPath c (cs : list string) w h :
  tryCompilers process fpmVersion fetchPath (c :: cs) w h =
  let filenameWithSuffix := filenameOf fpmVersion (platform process) (arch process) c in
  let before :=
    (unknownPlatform (platform process)
     ++ [ConsoleLog ("Trying to fetch compiler-built fpm: " ++ filenameWithSuffix)])%list in
  match w (h ++ before)%list (DownloadTool (fetchPath ++ filenameWithSuffix)) with
  | Resolved fpmPath =>
      (Returned (Some fpmPath),
       (before ++ [Await (DownloadTool (fetchPath ++ filenameWithSuffix)) (Resolved fpmPath)])%list)
  | Rejected message =>
      let failed :=
        (before ++ [Await (DownloadTool (fetchPath ++ filenameWithSuffix)) (Rejected message);
                    ConsoleLog ("  -> Failed to download " ++ filenameWithSuffix)])%list in
      let (r, t) := tryCompilers process fpmVersion fetchPath cs w (h ++ failed)%list in
      (r, (failed ++ t)%list)
  end.
Proof.
  cbn [tryCompilers]. unfold_monad. rewrite getFPMFilename_run.
  unfold unknownPlatform. cbv zeta.
  rewrite <- ?app_assoc.
  destruct (w _ (DownloadTool _)) as [fpmPath|message]; cbn.
  - rewrite <- ?app_assoc. reflexivity.
  - rewrite <- ?app_assoc. cbn.
    destruct (tryCompilers _ _ _ cs w _) as [r t].
    now rewrite <- ?app_assoc.
Qed.

(** The loop tries the suffixed filenames in the order of the list,
    whatever the list is, and never throws. *)
Lemma tryCompilers_cascade fpmVersion fetchPath (cs : list string) w h :
  exists hit t,
    tryCompilers process fpmVersion fetchPath cs w h = (Returned (option_map snd hit), t) /\
    cascade (map (fun c => fetchPath ++ filenameOf fpmVersion (platform process) (arch process) c) cs)
            (downloads t) hit /\
    forallb cascadeEvent t = true.
Proof.
  revert h. induction cs as [|c cs IH]; intros h.
  - exists None, []. repeat split. constructor.
  - rewrite tryCompilers_cons. cbv zeta.
    destruct (w _ (DownloadTool _)) as [fpmPath|message].
    + exists (Some (fetchPath ++ filenameOf fpmVersion (platform process) (arch process) c, fpmPath)).
      eexists. split; [reflexivity|]. split.
      * rewrite !downloads_app, downloads_unknown. cbn. constructor.
      * rewrite !forallb_app, cascadeEvent_unknown. reflexivity.
    + match goal with |- context [tryCompilers _ _ _ cs w ?h'] =>
        destruct (IH h') as (hit & t & -> & Hc & He) end.
      eexists _, _. split; [reflexivity|]. split.
      * rewrite !downloads_app, downloads_unknown. cbn. constructor. exact Hc.
      * rewrite !forallb_app, cascadeEvent_unknown, He. reflexivity.
Qed.

(** Lines 56-62: the first download, then the loop when it throws. *)
Lemma acquire_run fpmVersion fetchPath w h :
  acquire process fpmVersion fetchPath w h =
  let filename := filenameOf fpmVersion (platform process) (arch process) "" in
  let before := unknownPlatform (platform process) in
  match w (h ++ before)%list (DownloadTool (fetchPath ++ filename)) with
  | Resolved fpmPath =>
      (Returned (Some fpmPath),
       (before ++ [Await (DownloadTool (fetchPath ++ filename)) (Resolved fpmPath)])%list)
  | Rejected message =>
      let failed :=
        (before ++ [Await (DownloadTool (fetchPath ++ filename)) (Rejected message)])%list in
      let (r, t) := tryCompilers process fpmVersion fetchPath compilers w (h ++ failed)%list in
      (r, (failed ++ t)%list)
  end.
Proof.
  unfold acquire. unfold_monad. rewrite getFPMFilename_run.
  unfold unknownPlatform. cbv zeta.
  destruct (w _ (DownloadTool _)) as [fpmPath|message]; cbv beta iota.
  - rewrite app_nil_r. reflexivity.
  - rewrite <- ?app_assoc. cbn [app].
    destruct (tryCompilers _ _ _ compilers w _) as [r t]. reflexivity.
Qed.

Lemma acquire_cascade fpmVersion fetchPath w h :
  exists hit t,
    acquire process fpmVersion fetchPath w h = (Returned (option_map snd hit), t) /\
    cascade (map (append fetchPath) (candidates fpmVersion (platform process) (arch process)))
            (downloads t) hit /\
    forallb cascadeEvent t = true.
Proof.
  rewrite acquire_run. cbv zeta.
  destruct (w _ (DownloadTool _)) as [fpmPath|message].
  - exists (Some (fetchPath ++ filenameOf fpmVersion (platform process) (arch process) "", fpmPath)).
    eexists. split; [reflexivity|]. split.
    + rewrite downloads_app, downloads_unknown. cbn. constructor.
    + rewrite !forallb_app, cascadeEvent_unknown. reflexivity.
  - match goal with |- context [tryCompilers _ _ _ compilers w ?h'] =>
      destruct (tryCompilers_cascade fpmVersion fetchPath compilers w h')
        as (hit & t & -> & Hc & He) end.
    eexists _, _. split; [reflexivity|]. split.
    + rewrite !downloads_app, downloads_unknown. cbn [downloads app].
      unfold candidates. cbn [map]. constructor.
      rewrite map_map. exact Hc.
    + rewrite !forallb_app, cascadeEvent_unknown, He. reflexivity.
Qed.

(** Lines 56-110: [download] is the cascade, followed by lines 85-109
    when nothing was obtained. *)
Lemma download_run fpmVersion fpmRepo fetchPath w h :
  download process path fpmVersion fpmRepo fetchPath w h =
  match acquire process fpmVersion fetchPath w h with
  | (Returned (Some fpmPath), t) => (Returned (Continue (Some fpmPath)), t)
  | (Returned None, t) =>
      let (r, t') := noPrebuilt process path fpmVersion fpmRepo w (h ++ t)%list in
      (r, (t ++ t')%list)
  | (Thrown message, t) => (Thrown message, t)
  end.
Proof.
  destruct (acquire_cascade fpmVersion fetchPath w h) as (hit & t & E & _ & _).
  rewrite E. revert E. generalize (option_map snd hit) as result. intros result.
  rewrite acquire_run.
  unfold download. unfold_monad. rewrite getFPMFilename_run.
  fold (unknownPlatform (platform process)). cbv zeta.
  destruct (w _ (DownloadTool _)) as [fpmPath|message]; cbv beta iota.
  - rewrite app_nil_r. now intros [= <- <-].
  - rewrite <- ?app_assoc. cbn [app].
    destruct (tryCompilers _ _ _ compilers w _) as [r t0].
    intros [= -> <-]. destruct result as [fpmPath|]; cbv beta iota.
    + now rewrite app_nil_r.
    + rewrite <- ?app_assoc. cbn [app].
      destruct (noPrebuilt _ _ _ _ w _) as [r' t']. now rewrite <- ?app_assoc.
Qed.

End Cascade.

(** C1. Whatever the world answers, the download cascade of lines 56-83
    attempts the candidate urls strictly in order (the attempts made are an
    initial segment of the candidate list); a rejected download is followed
    by the next candidate instead of ending the cascade (nothing is thrown,
    and [None] comes out only after every candidate was attempted and
    rejected); the first download that resolves ends the cascade with its
    path, every attempt before it was rejected and none is made after it.
    The same holds of the loop of lines 69-83 for every list of compiler
    suffixes.  ([download_run]: the download statement of [main] is this
    cascade, followed by lines 85-109 only when it obtained nothing.) *)
Theorem cascade_first_success_wins process fpmVersion fetchPath w h :
  (forall cs : list string,
      exists hit t,
        tryCompilers process fpmVersion fetchPath cs w h = (Returned (option_map snd hit), t) /\
        cascade (map (fun c => fetchPath ++ filenameOf fpmVersion (platform process) (arch process) c) cs)
                (downloads t) hit) /\
  exists result t,
    acquire process fpmVersion fetchPath w h = (Returned result, t) /\
    let urls := map (append fetchPath)
                    (candidates fpmVersion (platform process) (arch process)) in
    map fst (downloads t) = firstn (List.length (downloads t)) urls /\
    match result with
    | Some fpmPath =>
        exists failed u,
          downloads t = (failed ++ [(u, Resolved fpmPath)])%list /\
          Forall rejected failed
    | None => Forall rejected (downloads t) /\ map fst (downloads t) = urls
    end.
Proof.
  split.
  { intros cs. destruct (tryCompilers_cascade process fpmVersion fetchPath cs w h)
      as (hit & t & E & Hc & _). now exists hit, t. }
  destruct (acquire_cascade process fpmVersion fetchPath w h) as (hit & t & E & Hc & _).
  exists (option_map snd hit), t. split; [exact E|]. cbv zeta.
  split; [exact (cascade_in_order _ _ _ Hc)|].
  destruct hit as [[u fpmPath]|]; cbn [option_map snd].
  - destruct (cascade_first_hit _ _ _ _ Hc) as (failed & Ha & Hf). now exists failed, u.
  - exact (cascade_all_failed _ _ Hc).
Qed.

(** C2. For every version, platform and architecture the candidate list has
    1 + 5 = 6 entries: the filename without compiler suffix first, then the
    filenames with the suffixes gcc-10, gcc-11, gcc-12, gcc-13, gcc-14 in
    that order.  It is a function of (version, platform, arch) alone, and it
    is the list the cascade walks: a cascade that obtains nothing has
    attempted exactly these six, in this order, whatever the world. *)
Theorem candidate_list_shape process fpmVersion fetchPath w h :
  let cands := candidates fpmVersion (platform process) (arch process) in
  let name := filenameOf fpmVersion (platform process) (arch process) in
  cands = [name ""; name "gcc-10"; name "gcc-11"; name "gcc-12"; name "gcc-13"; name "gcc-14"] /\
  cands = name "" :: map name Spec.compilerTags /\
  List.length cands = (1 + List.length Spec.compilerTags)%nat /\
  List.length cands = 6%nat /\
  match acquire process fpmVersion fetchPath w h with
  | (Returned None, t) => map fst (downloads t) = map (append fetchPath) cands
  | (Returned (Some _), t) =>
      map fst (downloads t) = firstn (List.length (downloads t)) (map (append fetchPath) cands)
  | (Thrown _, _) => False
  end.
Proof.
  cbv zeta. repeat (split; [reflexivity|]).
  destruct (acquire_cascade process fpmVersion fetchPath w h) as (hit & t & -> & Hc & _).
  destruct hit as [[u fpmPath]|]; cbn [option_map snd].
  - exact (cascade_in_order _ _ _ Hc).
  - exact (proj2 (cascade_all_failed _ _ Hc)).
Qed.

(* ===================================================================== *)
(** * The filename resolver *)
(* ===================================================================== *)

Lemma replace_v_leading (s : string) : JS.replace "v" "" (String "v" s) = s.
Proof. destruct s; reflexivity. Qed.

Lemma replace_v_absent (s : string) :
  contains "v" s = false -> JS.replace "v" "" s = s.
Proof.
  induction s as [|c s IH]; [reflexivity|].
  cbn [contains]. intros H. apply orb_false_elim in H. destruct H as [Hc Hs].
  cbn [JS.replace String.prefix].
  destruct (ascii_dec "v" c) as [<-|_]; [discriminate|].
  now rewrite (IH Hs).
Qed.

(** Removing the first [v] strips the leading [v] when the version starts
    with one, and does nothing when the version holds none. *)
Lemma replace_v_strip (version : string) :
  vOnlyLeading version = true ->
  JS.replace "v" "" version = Spec.stripLeadingV version.
Proof.
  unfold vOnlyLeading, Spec.stripLeadingV.
  destruct version as [|c s]; [reflexivity|].
  destruct (Ascii.eqb_spec c "v") as [->|N].
  - intros _. apply replace_v_leading.
  - intros H. cbn [orb] in H. apply negb_true_iff in H.
    rewrite (replace_v_absent _ H).
    destruct c as [[] [] [] [] [] [] [] []]; try reflexivity. now elim N.
Qed.

(** For the three platforms, a version whose only [v] (if any) is the
    leading one, and a compiler tag that is absent or not empty, the
    resolver returns the filename of the specified layout and reports
    nothing. *)
Lemma getFPMFilename_layout fpmVersion platform arch (tag : option string) os w h :
  Spec.osName platform = Some os ->
  vOnlyLeading fpmVersion = true ->
  tag <> Some "" ->
  getFPMFilename fpmVersion platform arch (tagArgument tag) w h =
  (Returned (Spec.artifactFilename fpmVersion os (Spec.archName arch) tag
                                   (platform =? "win32")),
   []).
Proof.
  intros Hos Hv Htag. rewrite getFPMFilename_run, filenameOf_layout, Hos.
  rewrite (replace_v_strip _ Hv). unfold Spec.artifactFilename.
  assert (K : knownPlatform platform = true).
  { unfold knownPlatform. unfold Spec.osName in Hos.
    destruct (platform =? "linux"); [reflexivity|].
    destruct (platform =? "darwin"); [reflexivity|].
    destruct (platform =? "win32"); [reflexivity | discriminate]. }
  rewrite K. f_equal. f_equal.
  destruct tag as [[|c t]|]; [now elim Htag | |]; cbn [tagArgument JS.truthy];
    rewrite ?append_assoc; reflexivity.
Qed.

(** C3. The resolver removes the first [v] of the version wherever it
    stands, not only a leading one: for the version [dev] on linux/x64 it
    returns [fpm-de-linux-x86_64], where the layout with the leading [v]
    stripped is [fpm-dev-linux-x86_64]. *)
Theorem getFPMFilename_removes_inner_v w h :
  getFPMFilename "dev" "linux" "x64" "" w h = (Returned "fpm-de-linux-x86_64", []) /\
  Spec.artifactFilename "dev" "linux" (Spec.archName "x64") None false
  = "fpm-dev-linux-x86_64" /\
  Spec.osName "linux" = Some "linux".
Proof. repeat split. Qed.

(** C9. For a platform that is none of linux, darwin and win32 the resolver
    reports the failure [Unknown platform] and still returns a filename,
    built without os and arch tokens: [fpm-<version>-], followed by
    [-<compiler>] when a compiler is given.  Execution goes on: the download
    statement of [main] reports the failure again and attempts the download
    of that partial filename. *)
Theorem unknown_platform_does_not_stop
        process path fpmVersion fpmRepo fetchPath compiler w h
        (Hunknown : knownPlatform (platform process) = false) :
  getFPMFilename fpmVersion (platform process) (arch process) compiler w h
  = (Returned ("fpm-" ++ JS.replace "v" "" fpmVersion ++ "-"
               ++ (if JS.truthy compiler then "-" ++ compiler else "")),
     [SetFailed "Unknown platform"]) /\
  exists c r rest,
    download process path fpmVersion fpmRepo fetchPath w h
    = (c, SetFailed "Unknown platform"
          :: Await (DownloadTool (fetchPath ++ "fpm-" ++ JS.replace "v" "" fpmVersion ++ "-")) r
          :: rest).
Proof.
  assert (Hos : Spec.osName (platform process) = None /\ (platform process =? "win32") = false).
  { unfold knownPlatform in Hunknown. unfold Spec.osName.
    destruct (platform process =? "linux"); [discriminate|].
    destruct (platform process =? "darwin"); [discriminate|].
    destruct (platform process =? "win32"); [discriminate | now split]. }
  destruct Hos as [Hos Hwin].
  assert (Hname : forall c, filenameOf fpmVersion (platform process) (arch process) c
                       = "fpm-" ++ JS.replace "v" "" fpmVersion ++ "-"
                         ++ (if JS.truthy c then "-" ++ c else "")).
  { intros c. rewrite filenameOf_layout, Hos, Hwin.
    now rewrite append_nil_r. }
  split.
  - now rewrite getFPMFilename_run, Hunknown, Hname.
  - rewrite download_run, acquire_run. cbv zeta.
    unfold unknownPlatform. rewrite Hunknown, (Hname ""). cbn [JS.truthy].
    rewrite append_nil_r.
    destruct (w _ (DownloadTool _)) as [fpmPath|message].
    + eexists _, _, _. reflexivity.
    + destruct (tryCompilers _ _ _ compilers w _) as [[[fpmPath|]|m] t].
      * eexists _, _, _. reflexivity.
      * destruct (noPrebuilt _ _ _ _ w _) as [r' t']. eexists _, _, _. reflexivity.
      * eexists _, _, _. reflexivity.
Qed.

Lemma unknown_platform_does_not_stop_witness :
  knownPlatform (platform freebsd) = false /\
  getFPMFilename "v0.10.1" (platform freebsd) (arch freebsd) "gcc-12"
                 (stub (fun _ => Rejected "404")) []
  = (Returned "fpm-0.10.1--gcc-12", [SetFailed "Unknown platform"]).
Proof.
  split; [reflexivity|].
  exact (proj1 (unknown_platform_does_not_stop freebsd posix "v0.10.1" "" "" "gcc-12"
                  (stub (fun _ => Rejected "404")) [] eq_refl)).
Defined.

(* ===================================================================== *)
(** * The source build pipeline *)
(* ===================================================================== *)

(** C6. Compiler discovery probes the unversioned [gfortran] first and then,
    whatever that probe gave, the versioned names in the order gfortran-13,
    gfortran-12, gfortran-11, gfortran-10, up to the first that is found.
    The first versioned match is selected; the unversioned compiler is
    selected only when no versioned one was found and the unversioned probe
    succeeded; and the discovery fails, with the remediation text as its
    only failure, exactly when neither was found. *)
Theorem discoverCompiler_prefers_versioned w h :
  exists selected t unversioned versioned hit,
    discoverCompiler w h = (Returned selected, t) /\
    probes t = ("gfortran", unversioned) :: versioned /\
    cascade ["gfortran-13"; "gfortran-12"; "gfortran-11"; "gfortran-10"] versioned hit /\
    selected = match hit, unversioned with
               | Some (name, _), _ => Some name
               | None, Resolved _ => Some "gfortran"
               | None, Rejected _ => None
               end /\
    failures t = match selected with
                 | None => [compilerNotFound]
                 | Some _ => []
                 end.
Proof.
  unfold discoverCompiler. cbn [probeVersioned]. unfold_monad.
  answers w; cbn; eexists _, _, _, _, _;
    (split; [reflexivity|]); (split; [reflexivity|]);
    (split; [repeat constructor|]); split; reflexivity.
Qed.

(* ===================================================================== *)
(** * The stages of [main] *)
(* ===================================================================== *)

Section Stages.

Variable process : Process.
Variable path : Path.

(** Lines 25-41. *)
Lemma resolveVersion_run token fpmVersion w h :
  resolveVersion token fpmVersion w h =
  if fpmVersion =? "latest" then
    let warned := if token =? "none" then [SetFailed tokenMissing] else [] in
    match w (h ++ warned)%list (LatestRelease token) with
    | Resolved tag =>
        (Returned tag, (warned ++ [Await (LatestRelease token) (Resolved tag)])%list)
    | Rejected message =>
        (Returned fpmVersion,
         (warned ++ [Await (LatestRelease token) (Rejected message);
                     SetFailed latestQueryFailed])%list)
    end
  else (Returned fpmVersion, []).
Proof.
  unfold resolveVersion. destruct (fpmVersion =? "latest"); [|reflexivity].
  unfold_monad. destruct (token =? "none"); cbv beta iota zeta;
    rewrite ?app_nil_r; destruct (w _ _); reflexivity.
Qed.

(** Lines 85-109. *)
Lemma noPrebuilt_run fpmVersion fpmRepo w h :
  noPrebuilt process path fpmVersion fpmRepo w h =
  if (platform process =? "darwin") && (arch process =? "arm64") then
    let announced :=
      [ConsoleLog "No pre-built ARM64 binary found, falling back to building from source"] in
    if isOldVersion fpmVersion
    then (Returned Return, (announced ++ [SetFailed (sourceBuildIneligible fpmVersion)])%list)
    else
      match installFromSource process path fpmVersion fpmRepo w (h ++ announced)%list with
      | (Returned _, t) => (Returned Return, (announced ++ t)%list)
      | (Thrown message, t) => (Thrown message, (announced ++ t)%list)
      end
  else (Returned (Continue None), [SetFailed fetchFailed]).
Proof.
  unfold noPrebuilt.
  destruct ((platform process =? "darwin") && (arch process =? "arm64")); [|reflexivity].
  destruct (isOldVersion fpmVersion); [reflexivity|].
  unfold_monad. cbv zeta.
  destruct (installFromSource _ _ _ _ w _) as [[[]|m] t]; [|reflexivity].
  cbn. now rewrite app_nil_r.
Qed.

(** Lines 112-113 when nothing was downloaded. *)
Lemma finalize_undefined w h :
  finalize process path None w h = (Thrown dirnameOfUndefined, [ConsoleLog "undefined"]).
Proof. reflexivity. Qed.

(** Lines 112-135 for a downloaded file. *)
Lemma finalize_run fpmPath w h :
  finalize process path (Some fpmPath) w h =
  let downloadDir := dirname path fpmPath in
  let chmod := Exec ("chmod u+x " ++ fpmPath) [] noOptions in
  let mv := Mv fpmPath (downloadDir ++ "/"
                        ++ (if platform process =? "win32" then "fpm.exe" else "fpm")) in
  let rename (before : trace) :=
    match w (h ++ before)%list mv with
    | Resolved v =>
        (Returned tt,
         (before ++ [Await mv (Resolved v); AddPath downloadDir;
                     ConsoleLog ("fpm added to path at " ++ downloadDir)])%list)
    | Rejected message => (Thrown message, (before ++ [Await mv (Rejected message)])%list)
    end in
  if (platform process =? "linux") || (platform process =? "darwin") then
    match w (h ++ [ConsoleLog fpmPath])%list chmod with
    | Resolved v => rename [ConsoleLog fpmPath; Await chmod (Resolved v)]
    | Rejected message => (Thrown message, [ConsoleLog fpmPath; Await chmod (Rejected message)])
    end
  else rename [ConsoleLog fpmPath].
Proof.
  unfold finalize. unfold_monad. cbn [display]. cbv zeta.
  destruct ((platform process =? "linux") || (platform process =? "darwin"));
    destruct (platform process =? "win32"); cbv beta iota;
    answers w; cbn [app]; reflexivity.
Qed.

(** Lines 11-142: the stages of [main] and what each adds to the trace. *)
Lemma main_run input w h :
  main process path input w h =
  let fpmRepo := fpm_repository input in
  let inputs := [ConsoleLog ("fpm-version: " ++ fpm_version input);
                 ConsoleLog ("fpm-repository: " ++ fpmRepo)] in
  match resolveVersion (github_token input) (fpm_version input) w (h ++ inputs)%list with
  | (Thrown message, tr) => (Returned tt, (inputs ++ tr ++ [SetFailed message])%list)
  | (Returned fpmVersion, tr) =>
      let fetchPath := fpmRepo ++ "/releases/download/" ++ fpmVersion ++ "/" in
      let filename := filenameOf fpmVersion (platform process) (arch process) "" in
      let before :=
        (inputs ++ tr
         ++ [ConsoleLog ("System architecture: " ++ arch process);
             ConsoleLog ("This platform is " ++ platform process)]
         ++ unknownPlatform (platform process)
         ++ [ConsoleLog ("Fetching fpm from " ++ fetchPath ++ filename)])%list in
      match download process path fpmVersion fpmRepo fetchPath w (h ++ before)%list with
      | (Thrown message, td) => (Returned tt, (before ++ td ++ [SetFailed message])%list)
      | (Returned Return, td) => (Returned tt, (before ++ td)%list)
      | (Returned (Continue fpmPath), td) =>
          match finalize process path fpmPath w (h ++ before ++ td)%list with
          | (Returned _, tf) => (Returned tt, (before ++ td ++ tf)%list)
          | (Thrown message, tf) =>
              (Returned tt, (before ++ td ++ tf ++ [SetFailed message])%list)
          end
      end
  end.
Proof.
  unfold main. unfold_monad. norm.
  destruct (resolveVersion _ _ w _) as [[fpmVersion|m] tr]; [|reflexivity].
  rewrite getFPMFilename_run. unfold unknownPlatform. norm.
  destruct (download _ _ _ _ _ w _) as [[[fpmPath|]|m] td]; norm.
  - destruct (finalize _ _ _ w _) as [[[]|m] tf]; norm; reflexivity.
  - now rewrite app_nil_r.
  - reflexivity.
Qed.

(** The same for a run from the empty history. *)
Lemma main_from_start input w :
  run (main process path input) w =
  let fpmRepo := fpm_repository input in
  let inputs := [ConsoleLog ("fpm-version: " ++ fpm_version input);
                 ConsoleLog ("fpm-repository: " ++ fpmRepo)] in
  match resolveVersion (github_token input) (fpm_version input) w inputs with
  | (Thrown message, tr) => (Returned tt, (inputs ++ tr ++ [SetFailed message])%list)
  | (Returned fpmVersion, tr) =>
      let fetchPath := fpmRepo ++ "/releases/download/" ++ fpmVersion ++ "/" in
      let filename := filenameOf fpmVersion (platform process) (arch process) "" in
      let before :=
        (inputs ++ tr
         ++ [ConsoleLog ("System architecture: " ++ arch process);
             ConsoleLog ("This platform is " ++ platform process)]
         ++ unknownPlatform (platform process)
         ++ [ConsoleLog ("Fetching fpm from " ++ fetchPath ++ filename)])%list in
      match download process path fpmVersion fpmRepo fetchPath w before with
      | (Thrown message, td) => (Returned tt, (before ++ td ++ [SetFailed message])%list)
      | (Returned Return, td) => (Returned tt, (before ++ td)%list)
      | (Returned (Continue fpmPath), td) =>
          match finalize process path fpmPath w (before ++ td)%list with
          | (Returned _, tf) => (Returned tt, (before ++ td ++ tf)%list)
          | (Thrown message, tf) =>
              (Returned tt, (before ++ td ++ tf ++ [SetFailed message])%list)
          end
      end
  end.
Proof. unfold run. rewrite main_run. reflexivity. Qed.

End Stages.

Lemma calls_app (t1 t2 : trace) : calls (t1 ++ t2) = (calls t1 ++ calls t2)%list.
Proof. induction t1 as [|[] t1 IH]; cbn; now rewrite ?IH. Qed.

Lemma failures_app (t1 t2 : trace) : failures (t1 ++ t2) = (failures t1 ++ failures t2)%list.
Proof. induction t1 as [|[] t1 IH]; cbn; now rewrite ?IH. Qed.

Lemma paths_app (t1 t2 : trace) : paths (t1 ++ t2) = (paths t1 ++ paths t2)%list.
Proof. induction t1 as [|[] t1 IH]; cbn; now rewrite ?IH. Qed.

Section Pipeline.

Variable process : Process.
Variable path : Path.

(** Lines 206-298: discovery, then the build, inside one [try]. *)
Lemma installFromSource_run fpmVersion fpmRepo w h :
  installFromSource process path fpmVersion fpmRepo w h =
  match discoverCompiler w h with
  | (Returned None, td) => (Returned tt, td)
  | (Returned (Some gfortranCmd), td) =>
      match buildAndInstall process path fpmVersion fpmRepo gfortranCmd w (h ++ td)%list with
      | (Returned _, tb) => (Returned tt, (td ++ tb)%list)
      | (Thrown message, tb) =>
          (Returned tt,
           (td ++ tb ++ [SetFailed ("Failed to install fpm from source: " ++ message)])%list)
      end
  | (Thrown message, td) =>
      (Returned tt, (td ++ [SetFailed ("Failed to install fpm from source: " ++ message)])%list)
  end.
Proof.
  unfold installFromSource. unfold tryCatch, bind at 1.
  destruct (discoverCompiler w h) as [[[cmd|]|m] td]; norm.
  - destruct (buildAndInstall _ _ _ _ _ w _) as [[[]|m] tb]; unfold_monad; norm;
      rewrite ?app_nil_r; reflexivity.
  - unfold_monad. now rewrite ?app_nil_r.
  - reflexivity.
Qed.

(** Discovery only probes: every call is a [which]. *)
Lemma discoverCompiler_observed w h :
  exists selected t,
    discoverCompiler w h = (Returned selected, t) /\
    forallb isWhich (calls t) = true /\
    sourceBuildEntered t = true /\
    paths t = [] /\
    failures t = match selected with None => [compilerNotFound] | Some _ => [] end.
Proof.
  unfold discoverCompiler. cbn [probeVersioned]. unfold_monad.
  answers w; eexists _, _; (split; [reflexivity|]); repeat split.
Qed.

End Pipeline.

Section Build.

Variable process : Process.
Variable path : Path.

(** The stages run in order, each once the one before has resolved; the
    first rejection ends the run.  The install directory is registered
    between the fifth stage and the sixth, the removal of the build
    workspace. *)
Lemma buildAndInstall_stages fpmVersion fpmRepo gfortranCmd w h :
  exists r t tarballPath n,
    buildAndInstall process path fpmVersion fpmRepo gfortranCmd w h = (r, t) /\
    calls t = firstn n (stages process path fpmVersion fpmRepo gfortranCmd tarballPath) /\
    failures t = [] /\
    paths t = (if (6 <=? n)%nat then [installDir process path] else []) /\
    existsb isRmRF (calls t) = (6 <=? n)%nat /\
    match r with
    | Returned _ => n = 6%nat /\ Forall resolved (awaited t)
    | Thrown message =>
        exists before c,
          awaited t = (before ++ [(c, Rejected message)])%list /\
          Forall resolved before
    end.
Proof.
  unfold buildAndInstall. unfold_monad.
  answers w;
    first [ solve_stage 6%nat | solve_stage 5%nat | solve_stage 4%nat | solve_stage 3%nat
          | solve_stage 2%nat | solve_stage 1%nat ].
  Unshelve. all: exact EmptyString.
Qed.

End Build.

(* ===================================================================== *)
(** * When the source build is entered *)
(* ===================================================================== *)

Lemma sourceBuildEntered_app (t1 t2 : trace) :
  sourceBuildEntered (t1 ++ t2) = sourceBuildEntered t1 || sourceBuildEntered t2.
Proof. unfold sourceBuildEntered. now rewrite calls_app, existsb_app. Qed.

Lemma cascade_not_entered (t : trace) :
  forallb cascadeEvent t = true -> sourceBuildEntered t = false.
Proof.
  intros H. unfold sourceBuildEntered.
  rewrite (proj1 (cascadeEvent_calls t H)). now apply existsb_map_DownloadTool.
Qed.

Lemma unknownPlatform_not_entered (platform : string) :
  sourceBuildEntered (unknownPlatform platform) = false.
Proof. apply cascade_not_entered, cascadeEvent_unknown. Qed.

Lemma resolveVersion_total token fpmVersion w h :
  exists version tr,
    resolveVersion token fpmVersion w h = (Returned version, tr) /\
    sourceBuildEntered tr = false /\
    ((fpmVersion =? "latest") = false -> version = fpmVersion /\ tr = []).
Proof.
  rewrite resolveVersion_run.
  destruct (fpmVersion =? "latest").
  - cbv zeta. destruct (token =? "none"); destruct (w _ _);
      eexists _, _; (split; [reflexivity|]); split; try reflexivity; discriminate.
  - eexists _, _. split; [reflexivity|]. now repeat split.
Qed.

Lemma installFromSource_entered process path fpmVersion fpmRepo w h :
  exists t,
    installFromSource process path fpmVersion fpmRepo w h = (Returned tt, t) /\
    sourceBuildEntered t = true.
Proof.
  rewrite installFromSource_run.
  destruct (discoverCompiler_observed w h) as (selected & td & -> & _ & He & _).
  destruct selected as [cmd|].
  - destruct (buildAndInstall _ _ _ _ _ w _) as [[[]|m] tb];
      eexists; (split; [reflexivity|]); now rewrite sourceBuildEntered_app, He.
  - now exists td.
Qed.

Lemma finalize_not_entered process path fpmPath w h :
  exists r t,
    finalize process path (Some fpmPath) w h = (r, t) /\
    sourceBuildEntered t = false.
Proof.
  rewrite finalize_run. cbv zeta.
  destruct ((platform process =? "linux") || (platform process =? "darwin"));
    answers w; eexists _, _; split; reflexivity.
Qed.

(** C5. In every run of [main] the source build pipeline is entered only
    after the cascade, and exactly when the platform is darwin, the
    architecture is arm64, the cascade obtained nothing (all six candidate
    downloads were attempted and rejected) and the version is not an old
    one.  When the cascade obtains nothing on another platform/architecture
    pairing, the run ends with failures and without a source build; when it
    obtains nothing on darwin/arm64 for an old version, the run ends with the
    failure of lines 96-100 instead of building. *)
Theorem source_build_is_the_last_resort process path input w :
  let fpmRepo := fpm_repository input in
  exists fpmVersion before obtained ta rest,
    run (main process path input) w = (Returned tt, (before ++ ta ++ rest)%list) /\
    ((fpm_version input =? "latest") = false -> fpmVersion = fpm_version input) /\
    acquire process fpmVersion (fpmRepo ++ "/releases/download/" ++ fpmVersion ++ "/") w before
    = (Returned obtained, ta) /\
    sourceBuildEntered (before ++ ta) = false /\
    (obtained = None ->
     Forall rejected (downloads ta) /\
     map fst (downloads ta)
     = map (append (fpmRepo ++ "/releases/download/" ++ fpmVersion ++ "/"))
           (candidates fpmVersion (platform process) (arch process))) /\
    (sourceBuildEntered rest = true <->
     platform process = "darwin" /\ arch process = "arm64" /\
     obtained = None /\ isOldVersion fpmVersion = false) /\
    (obtained = None ->
     (platform process =? "darwin") && (arch process =? "arm64") = false ->
     rest = [SetFailed fetchFailed; ConsoleLog "undefined"; SetFailed dirnameOfUndefined]) /\
    (obtained = None ->
     platform process = "darwin" -> arch process = "arm64" ->
     isOldVersion fpmVersion = true ->
     rest = [ConsoleLog "No pre-built ARM64 binary found, falling back to building from source";
             SetFailed (sourceBuildIneligible fpmVersion)]).
Proof.
  cbv zeta. rewrite main_from_start. cbv zeta.
  destruct (resolveVersion_total (github_token input) (fpm_version input) w
              [ConsoleLog ("fpm-version: " ++ fpm_version input);
               ConsoleLog ("fpm-repository: " ++ fpm_repository input)])
    as (fpmVersion & tr & -> & Htr & Hsame).
  rewrite download_run.
  match goal with |- context [acquire _ _ _ w ?h'] => remember h' as before eqn:Hbefore end.
  destruct (acquire_cascade process fpmVersion
              (fpm_repository input ++ "/releases/download/" ++ fpmVersion ++ "/") w before)
    as (hit & ta & Ea & Hc & He).
  rewrite Ea.
  assert (Hquiet : sourceBuildEntered (before ++ ta) = false).
  { rewrite Hbefore, !sourceBuildEntered_app, Htr, unknownPlatform_not_entered,
      (cascade_not_entered _ He). reflexivity. }
  destruct hit as [[u fpmPath]|]; cbn [option_map snd] in *; cbv beta iota.
  - (* a candidate was downloaded *)
    destruct (finalize_not_entered process path fpmPath w (before ++ ta)%list)
      as (r & tf & -> & Hf).
    exists fpmVersion, before, (Some fpmPath), ta.
    destruct r as [[]|m].
    + exists tf. repeat split; try easy; try (now apply Hsame); congruence.
    + exists (tf ++ [SetFailed m])%list.
      assert (Hf' : sourceBuildEntered (tf ++ [SetFailed m]) = false)
        by now rewrite sourceBuildEntered_app, Hf.
      repeat split; try easy; try (now apply Hsame); congruence.
  - (* nothing was downloaded *)
    destruct (cascade_all_failed _ _ Hc) as [Hrej Hurls].
    rewrite noPrebuilt_run.
    exists fpmVersion, before, None, ta.
    destruct (String.eqb_spec (platform process) "darwin") as [Hp|Hp];
      [destruct (String.eqb_spec (arch process) "arm64") as [Ha|Ha]|]; cbn [andb].
    + destruct (isOldVersion fpmVersion) eqn:Hold; cbv zeta.
      * eexists. split; [reflexivity|].
        repeat split; try easy; try (now apply Hsame); discriminate.
      * match goal with |- context [installFromSource _ _ _ _ w ?h'] =>
          destruct (installFromSource_entered process path fpmVersion (fpm_repository input) w h')
            as (ti & -> & Hi) end.
        eexists. split; [reflexivity|].
        repeat split; try easy; try (now apply Hsame); discriminate.
    + rewrite finalize_undefined. eexists. split; [rewrite <- ?app_assoc; reflexivity|].
      repeat split; try easy; try (now apply Hsame); discriminate.
    + rewrite finalize_undefined. eexists. split; [rewrite <- ?app_assoc; reflexivity|].
      repeat split; try easy; try (now apply Hsame); discriminate.
Qed.

(** The two sample runs on darwin/arm64 without prebuilt binaries: v0.9.0
    goes on to the source build, v0.8.0 ends with the failure of lines
    96-100. *)
Example source_build_for_v0_9_0 :
  let t := snd (run (main macArm posix (request "v0.9.0")) sourceOnly) in
  sourceBuildEntered t = true /\ failures t = [].
Proof. vm_compute. split; reflexivity. Qed.

Example no_source_build_for_v0_8_0 :
  let t := snd (run (main macArm posix (request "v0.8.0")) sourceOnly) in
  sourceBuildEntered t = false /\ failures t = [sourceBuildIneligible "v0.8.0"].
Proof. vm_compute. split; reflexivity. Qed.

(** On linux/x64 the same failing downloads end the run with the failure of
    line 108, then the [TypeError] of line 113. *)
Example no_source_build_on_linux :
  let t := snd (run (main linux64 posix (request "v0.9.0")) sourceOnly) in
  sourceBuildEntered t = false /\ failures t = [fetchFailed; dirnameOfUndefined].
Proof. vm_compute. split; reflexivity. Qed.

(* ===================================================================== *)
(** * Finalization and cleanup *)
(* ===================================================================== *)

Lemma existsb_firstn {A} (f : A -> bool) (n : nat) (l : list A) :
  existsb f l = false -> existsb f (firstn n l) = false.
Proof.
  revert n. induction l as [|a l IH]; intros [|n]; try reflexivity.
  cbn. intros H. apply orb_false_elim in H. destruct H as [-> H]. now apply IH.
Qed.

Lemma which_only (l : list call) :
  forallb isWhich l = true ->
  existsb isChmod l = false /\ existsb isMv l = false /\ existsb isRmRF l = false.
Proof.
  induction l as [|c l IH]; [now repeat split|].
  cbn [forallb]. intros H. apply andb_prop in H. destruct H as [Hc Hl].
  destruct (IH Hl) as (H1 & H2 & H3).
  destruct c as [| | |cmd args opts| | |]; try discriminate.
  cbn in *. apply String.eqb_eq in Hc. subst cmd. now rewrite H1, H2, H3.
Qed.

Lemma stages_no_finalization process path fpmVersion fpmRepo gfortranCmd tarballPath n :
  existsb isChmod (firstn n (stages process path fpmVersion fpmRepo gfortranCmd tarballPath)) = false /\
  existsb isMv (firstn n (stages process path fpmVersion fpmRepo gfortranCmd tarballPath)) = false.
Proof. split; now apply existsb_firstn. Qed.

(** C7. The three finalization steps belong to the download path only.
    After a download, [main] marks the file executable on linux and darwin
    (and on no other platform), then renames it to [fpm] ([fpm.exe] on
    win32) inside its directory, then registers that directory on the PATH:
    the calls made are an initial segment of these steps, all of them when
    none is rejected, and the directory is registered only after both
    resolved.  The source build pipeline never marks a file executable and
    never renames one; the only step it shares is the registration, of its
    install directory, which a run without failure performs once. *)
Theorem finalization_steps_by_path process path :
  (forall fpmPath w h,
      exists r t n,
        finalize process path (Some fpmPath) w h = (r, t) /\
        calls t = firstn n (finalSteps process path fpmPath) /\
        match r with
        | Returned _ =>
            calls t = finalSteps process path fpmPath /\
            Forall resolved (awaited t) /\
            paths t = [dirname path fpmPath]
        | Thrown message =>
            (exists before c,
                awaited t = (before ++ [(c, Rejected message)])%list /\
                Forall resolved before) /\
            paths t = []
        end) /\
  (forall fpmVersion fpmRepo w h,
      exists t,
        installFromSource process path fpmVersion fpmRepo w h = (Returned tt, t) /\
        existsb isChmod (calls t) = false /\
        existsb isMv (calls t) = false /\
        (paths t = [] \/ paths t = [installDir process path]) /\
        (failures t = [] -> paths t = [installDir process path])).
Proof.
  split.
  - intros fpmPath w h. rewrite finalize_run. unfold finalSteps. cbv zeta.
    destruct ((platform process =? "linux") || (platform process =? "darwin"));
      answers w.
    all: first
      [ solve [ eexists _, _, 2%nat; (split; [reflexivity|]); (split; [reflexivity|]);
                cbn; split; [reflexivity|]; split; [repeat constructor | reflexivity] ]
      | solve [ eexists _, _, 1%nat; (split; [reflexivity|]); (split; [reflexivity|]);
                cbn; split; [reflexivity|]; split; [repeat constructor | reflexivity] ]
      | solve [ eexists _, _, 2%nat; (split; [reflexivity|]); (split; [reflexivity|]);
                cbn; split; [eexists [_], _; split; [reflexivity | repeat constructor]
                            | reflexivity] ]
      | solve [ eexists _, _, 1%nat; (split; [reflexivity|]); (split; [reflexivity|]);
                cbn; split; [eexists [], _; split; [reflexivity | repeat constructor]
                            | reflexivity] ] ].
  - intros fpmVersion fpmRepo w h. rewrite installFromSource_run.
    destruct (discoverCompiler_observed w h) as (selected & td & -> & Hw & _ & Hp & Hf).
    destruct (which_only _ Hw) as (Hc & Hm & _).
    destruct selected as [cmd|].
    + destruct (buildAndInstall_stages process path fpmVersion fpmRepo cmd w (h ++ td)%list)
        as (r & tb & tarballPath & n & -> & Hcalls & Hfail & Hpaths & _ & Hr).
      destruct (stages_no_finalization process path fpmVersion fpmRepo cmd tarballPath n)
        as [Hsc Hsm].
      assert (Hpaths' : paths tb = [] \/ paths tb = [installDir process path])
        by (rewrite Hpaths; destruct (6 <=? n)%nat; auto).
      destruct r as [[]|m]; eexists; (split; [reflexivity|]);
        rewrite ?calls_app, ?paths_app, ?failures_app, ?existsb_app,
          Hc, Hm, Hp, Hf, Hcalls, Hsc, Hsm, Hfail; cbn [app orb paths failures].
      * destruct Hr as [-> _]. rewrite Hpaths. repeat split; auto.
      * rewrite app_nil_r. repeat split; auto. discriminate.
    + exists td. rewrite Hc, Hm, Hp, Hf. repeat split; auto. discriminate.
Qed.

(** A source build on darwin/arm64 that succeeds: the install directory is
    registered, nothing is marked executable and nothing is renamed.  And a
    download on a platform that is neither win32 nor linux nor darwin: the
    file is renamed and its directory registered, but it is not marked
    executable. *)
Lemma main_skips_finalization_after_source_build :
  (let t := snd (run (main macArm posix (request "v0.9.0")) sourceOnly) in
   sourceBuildEntered t = true /\
   failures t = [] /\
   paths t = ["/Users/runner/.local/bin"] /\
   existsb isChmod (calls t) = false /\
   existsb isMv (calls t) = false) /\
  (let t := snd (run (main freebsd posix (request "v0.10.1")) indexAnswers) in
   calls t = [DownloadTool "https://github.com/fortran-lang/fpm/releases/download/v0.10.1/fpm-0.10.1-";
              Mv "/tmp/dl/fpm" "/tmp/dl/fpm"] /\
   failures t = ["Unknown platform"; "Unknown platform"] /\
   paths t = ["/tmp/dl"] /\
   existsb isChmod (calls t) = false).
Proof. vm_compute. repeat split. Qed.

(** C8. The removal of the build workspace is the sixth and last stage of
    the pipeline, inside the same [try] as the others: it is attempted when
    and only when the five stages before it resolved, after the install
    directory was registered.  A stage that is rejected ends the pipeline
    with the failure [Failed to install fpm from source: <message>] and the
    workspace is not removed; when the removal itself is rejected the same
    failure is reported, although the install directory is registered. *)
Theorem workspace_removed_after_success_only process path fpmVersion fpmRepo w h :
  exists selected td,
    discoverCompiler w h = (Returned selected, td) /\
    existsb isRmRF (calls td) = false /\
    match selected with
    | None => installFromSource process path fpmVersion fpmRepo w h = (Returned tt, td)
    | Some gfortranCmd =>
        exists r tb tarballPath n,
          buildAndInstall process path fpmVersion fpmRepo gfortranCmd w (h ++ td)%list = (r, tb) /\
          calls tb = firstn n (stages process path fpmVersion fpmRepo gfortranCmd tarballPath) /\
          existsb isRmRF (calls tb) = (6 <=? n)%nat /\
          paths tb = (if (6 <=? n)%nat then [installDir process path] else []) /\
          match r with
          | Returned _ =>
              n = 6%nat /\ Forall resolved (awaited tb) /\
              installFromSource process path fpmVersion fpmRepo w h
              = (Returned tt, (td ++ tb)%list) /\
              failures (td ++ tb) = []
          | Thrown message =>
              (exists before c,
                  awaited tb = (before ++ [(c, Rejected message)])%list /\
                  Forall resolved before) /\
              installFromSource process path fpmVersion fpmRepo w h
              = (Returned tt,
                 (td ++ tb ++ [SetFailed ("Failed to install fpm from source: " ++ message)])%list) /\
              failures (td ++ tb ++ [SetFailed ("Failed to install fpm from source: " ++ message)])
              = ["Failed to install fpm from source: " ++ message]
          end
    end.
Proof.
  rewrite installFromSource_run.
  destruct (discoverCompiler_observed w h) as (selected & td & -> & Hw & _ & Hp & Hf).
  destruct (which_only _ Hw) as (_ & _ & Hrm).
  exists selected, td. split; [reflexivity|]. split; [exact Hrm|].
  destruct selected as [cmd|]; [|reflexivity].
  destruct (buildAndInstall_stages process path fpmVersion fpmRepo cmd w (h ++ td)%list)
    as (r & tb & tarballPath & n & -> & Hcalls & Hfail & Hpaths & Hremoved & Hr).
  exists r, tb, tarballPath, n. split; [reflexivity|].
  split; [exact Hcalls|]. split; [exact Hremoved|]. split; [exact Hpaths|].
  destruct r as [[]|m].
  - destruct Hr as [Hn Hres]. repeat split; auto.
    now rewrite failures_app, Hf, Hfail.
  - repeat split; auto.
    now rewrite !failures_app, Hf, Hfail.
Qed.

(** A run whose install script fails leaves the workspace it created; a run
    where only the removal fails reports the pipeline as failed, after the
    install script succeeded and the install directory was registered. *)
Lemma workspace_left_behind_and_cleanup_failure_reported :
  (let t := snd (run (main macArm posix (request "v0.9.0")) installFails) in
   In (MkdirP "/tmp/runner/fpm-build") (calls t) /\
   existsb isRmRF (calls t) = false /\
   failures t = ["Failed to install fpm from source: exit code 2"]) /\
  (let t := snd (run (main macArm posix (request "v0.9.0")) cleanupFails) in
   In (Await (Exec "bash" ["/tmp/runner/fpm-build/fpm-0.9.0/install.sh";
                           "--prefix=/Users/runner/.local"]
                   {| silent := false; cwd := Some "/tmp/runner/fpm-build/fpm-0.9.0";
                      FC := Some "gfortran-12" |})
             (Resolved "")) t /\
   paths t = ["/Users/runner/.local/bin"] /\
   failures t = ["Failed to install fpm from source: EBUSY"]).
Proof. vm_compute. intuition. Qed.

(* ===================================================================== *)
(** * The version [latest] *)
(* ===================================================================== *)

(** Whatever happens next, the download statement starts with the attempt
    of the filename without compiler suffix. *)
Lemma download_first_attempt process path fpmVersion fpmRepo fetchPath w h :
  exists c td r others,
    download process path fpmVersion fpmRepo fetchPath w h = (c, td) /\
    downloads td
    = (fetchPath ++ filenameOf fpmVersion (platform process) (arch process) "", r) :: others.
Proof.
  rewrite download_run, acquire_run. cbv zeta.
  destruct (w _ (DownloadTool _)) as [fpmPath|message].
  - eexists _, _, _, _. split; [reflexivity|].
    rewrite downloads_app, downloads_unknown. reflexivity.
  - destruct (tryCompilers _ _ _ compilers w _) as [[[fpmPath|]|m] t].
    + eexists _, _, _, _. split; [reflexivity|].
      rewrite !downloads_app, downloads_unknown. reflexivity.
    + destruct (noPrebuilt _ _ _ _ w _) as [r' t']. eexists _, _, _, _.
      split; [reflexivity|]. rewrite !downloads_app, downloads_unknown. reflexivity.
    + eexists _, _, _, _. split; [reflexivity|].
      rewrite !downloads_app, downloads_unknown. reflexivity.
Qed.

(** The first download of a run of [main] whose version resolves to
    [fpmVersion] with the events [tr]. *)
Lemma main_first_download process path input w fpmVersion tr :
  resolveVersion (github_token input) (fpm_version input) w
                 [ConsoleLog ("fpm-version: " ++ fpm_version input);
                  ConsoleLog ("fpm-repository: " ++ fpm_repository input)]
  = (Returned fpmVersion, tr) ->
  downloads tr = [] ->
  exists r others,
    downloads (snd (run (main process path input) w))
    = (fpm_repository input ++ "/releases/download/" ++ fpmVersion ++ "/"
       ++ filenameOf fpmVersion (platform process) (arch process) "", r) :: others.
Proof.
  intros Er Htr. rewrite main_from_start. cbv zeta. rewrite Er.
  match goal with |- context [download _ _ _ _ ?fp w ?h'] =>
    destruct (download_first_attempt process path fpmVersion (fpm_repository input) fp w h')
      as (c & td & r & others & -> & Hd) end.
  exists r.
  destruct c as [[fpmPath|]|m]; [destruct (finalize _ _ _ w _) as [[[]|m] tf]| |];
    eexists; cbn [snd]; rewrite !downloads_app, Htr, downloads_unknown, Hd;
    cbn [downloads app]; rewrite <- ?append_assoc; reflexivity.
Qed.

(** [main] catches whatever is thrown. *)
Lemma main_returns process path input w :
  fst (run (main process path input) w) = Returned tt.
Proof.
  rewrite main_from_start. cbv zeta.
  destruct (resolveVersion _ _ w _) as [[v|m] tr]; [|reflexivity].
  destruct (download _ _ _ _ _ w _) as [[[fpmPath|]|m] td]; try reflexivity.
  now destruct (finalize _ _ _ w _) as [[[]|m] tf].
Qed.

(** C10.  When the requested version is [latest]: with the token [none] a
    failure is recorded and the release index is queried all the same; when
    the query throws, a failure is recorded, the version keeps the value
    [latest] and the cascade starts with the download of
    [<repo>/releases/download/latest/fpm-latest-<os>-<arch>] ([.exe] added on
    win32); when the query answers with a tag, with any token, the version
    becomes that tag. *)
Theorem latest_survives_a_failed_query process path input w
        (Hlatest : fpm_version input = "latest") :
  let fpmRepo := fpm_repository input in
  let token := github_token input in
  let inputs := [ConsoleLog ("fpm-version: " ++ fpm_version input);
                 ConsoleLog ("fpm-repository: " ++ fpmRepo)] in
  let warned := if token =? "none" then [SetFailed tokenMissing] else [] in
  let answer := w (inputs ++ warned)%list (LatestRelease token) in
  let t := snd (run (main process path input) w) in
  fst (run (main process path input) w) = Returned tt /\
  (exists rest, t = (inputs ++ warned ++ Await (LatestRelease token) answer :: rest)%list) /\
  (forall message, answer = Rejected message ->
     In latestQueryFailed (failures t) /\
     exists r others,
       downloads t
       = (fpmRepo ++ "/releases/download/latest/"
          ++ filenameOf "latest" (platform process) (arch process) "", r) :: others) /\
  (forall tag, answer = Resolved tag ->
     exists r others,
       downloads t
       = (fpmRepo ++ "/releases/download/" ++ tag ++ "/"
          ++ filenameOf tag (platform process) (arch process) "", r) :: others) /\
  (forall os, Spec.osName (platform process) = Some os ->
     filenameOf "latest" (platform process) (arch process) ""
     = "fpm-latest-" ++ os ++ "-" ++ Spec.archName (arch process)
       ++ (if platform process =? "win32" then ".exe" else "")).
Proof.
  cbv zeta.
  assert (Htest : (fpm_version input =? "latest") = true) by now rewrite Hlatest.
  assert (Er := resolveVersion_run (github_token input) (fpm_version input) w
                  [ConsoleLog ("fpm-version: " ++ fpm_version input);
                   ConsoleLog ("fpm-repository: " ++ fpm_repository input)]).
  rewrite Htest in Er. cbv zeta in Er.
  split; [|split; [|split; [|split]]].
  - apply main_returns.
  - rewrite main_from_start. cbv zeta. rewrite Er.
    destruct (w _ (LatestRelease _)) as [tag|message];
      (destruct (download _ _ _ _ _ w _) as [[[fpmPath|]|m] td];
       [destruct (finalize _ _ _ w _) as [[[]|m] tf]| |]);
      eexists; cbn [snd]; rewrite <- ?app_assoc; cbn [app]; rewrite <- ?app_assoc;
      reflexivity.
  - intros message Hm. rewrite Hm in Er. split.
    + rewrite main_from_start. cbv zeta. rewrite Er.
      destruct (download _ _ _ _ _ w _) as [[[fpmPath|]|m] td];
        [destruct (finalize _ _ _ w _) as [[[]|m] tf]| |];
        cbn [snd]; rewrite ?failures_app, ?in_app_iff; cbn [failures In]; intuition auto.
    + destruct (main_first_download process path input w _ _ Er) as (r & others & E).
      { rewrite downloads_app. now destruct (github_token input =? "none"). }
      exists r, others. rewrite E, Hlatest. reflexivity.
  - intros tag Ht. rewrite Ht in Er.
    apply (main_first_download process path input w tag _ Er).
    rewrite downloads_app. now destruct (github_token input =? "none").
  - intros os Hos. rewrite filenameOf_layout, Hos. cbn [JS.truthy].
    change (JS.replace "v" "" "latest") with "latest".
    rewrite !append_assoc. reflexivity.
Qed.

Lemma latest_survives_a_failed_query_witness :
  fpm_version (request "latest") = "latest" /\
  exists r others,
    downloads (snd (run (main linux64 posix (request "latest")) offline))
    = ("https://github.com/fortran-lang/fpm/releases/download/latest/fpm-latest-linux-x86_64", r)
        :: others.
Proof.
  split; [reflexivity|].
  destruct (latest_survives_a_failed_query linux64 posix (request "latest") offline eq_refl)
    as (_ & _ & H & _).
  destruct (H "request failed" eq_refl) as (_ & r & others & E).
  exists r, others. rewrite E. reflexivity.
Defined.

(** With the token [none] and a release index that answers, the failure for
    the missing token is recorded and the version becomes the tag. *)
Lemma token_none_does_not_keep_latest :
  let t := snd (run (main linux64 posix (request "latest")) indexAnswers) in
  github_token (request "latest") = "none" /\
  failures t = [tokenMissing] /\
  downloads t
  = [("https://github.com/fortran-lang/fpm/releases/download/v0.10.1/fpm-0.10.1-linux-x86_64",
      Resolved "/tmp/dl/fpm")].
Proof. vm_compute. repeat split. Qed.

(* ===================================================================== *)
(** * The version gate *)
(* ===================================================================== *)

(** On the versions that start with a [v] or hold none, the gate is the
    specified one. *)
Lemma isOldVersion_refines (fpmVersion : string) :
  vOnlyLeading fpmVersion = true ->
  negb (isOldVersion fpmVersion) = Spec.supportsSourceBuild fpmVersion.
Proof.
  intros H. unfold isOldVersion, Spec.supportsSourceBuild.
  now rewrite (replace_v_strip _ H).
Qed.

(** The gate fails open: with fewer than two components, or with a first or
    second component that is not a number, the version is not an old one. *)
Lemma isOldVersion_fail_open (fpmVersion : string) :
  let parts := JS.split "." (JS.replace "v" "" fpmVersion) in
  (List.length parts < 2)%nat \/
  option_map JS.Number (nth_error parts 0) = Some JS.NaN \/
  option_map JS.Number (nth_error parts 1) = Some JS.NaN ->
  isOldVersion fpmVersion = false.
Proof.
  cbv zeta. unfold isOldVersion.
  destruct (JS.split "." (JS.replace "v" "" fpmVersion)) as [|p0 [|p1 parts]]; cbn.
  - reflexivity.
  - now rewrite andb_false_r.
  - intros [H|[H|H]]; [lia | |]; injection H as ->; [reflexivity|].
    now rewrite andb_false_r.
Qed.


(** ** The gate on numbered versions *)

Lemma pow2_log2 (n : Z) : (1 <= n)%Z -> (2 ^ Z.log2 n <= n < 2 * 2 ^ Z.log2 n)%Z.
Proof.
  intros H. destruct (Z.log2_spec n ltac:(lia)) as [H1 H2].
  rewrite Z.pow_succ_r in H2 by apply Z.log2_nonneg. lia.
Qed.

(** A positive integer rounds to a binary64 that is at least [2^52 * 2^e],
    and to itself when it is below [2^53]. *)
Lemma round64_integer (n : Z) :
  (1 <= n)%Z ->
  (JS.round64 false n 1 = JS.Infinity false /\ (2 ^ 52 <= n)%Z) \/
  exists m e,
    JS.round64 false n 1 = JS.Finite false m e /\
    (2 ^ 52 <= m)%Z /\
    ((e < 0)%Z -> m = (n * 2 ^ (- e))%Z) /\
    ((0 <= e)%Z -> (2 ^ 52 <= n)%Z).
Proof.
  intros Hn. unfold JS.round64.
  destruct (Z.leb_spec n 0) as [|_]; [lia|].
  change (Z.log2 1) with 0%Z. rewrite Z.sub_0_r.
  pose proof (pow2_log2 n Hn) as [Hlo Hhi].
  pose proof (Z.log2_nonneg n) as Hk.
  set (k := Z.log2 n) in *.
  unfold JS.scaled.
  destruct (Z.leb_spec 0 (k - 52)) as [He|He].
  - (* 2^52 <= n *)
    assert (Hp : (0 < 2 ^ (k - 52))%Z) by (apply Z.pow_pos_nonneg; lia).
    assert (Hk52 : (2 ^ k = 2 ^ 52 * 2 ^ (k - 52))%Z).
    { rewrite <- Z.pow_add_r by lia. f_equal. lia. }
    rewrite Z.mul_1_l.
    assert (Hq1 : (2 ^ 52 <= n / 2 ^ (k - 52))%Z).
    { apply Z.div_le_lower_bound; lia. }
    assert (Hq2 : (n / 2 ^ (k - 52) < 2 ^ 53)%Z).
    { apply Z.div_lt_upper_bound; [lia|]. change (2 ^ 53)%Z with (2 * 2 ^ 52)%Z. lia. }
    destruct (Z.ltb_spec (n / 2 ^ (k - 52)) (2 ^ 52)) as [|_]; [lia|].
    rewrite Z.max_l by lia.
    destruct (Z.leb_spec 0 (k - 52)) as [_|]; [|lia].
    rewrite Z.mul_1_l.
    assert (H52 : (2 ^ 52 <= n)%Z) by lia.
    match goal with |- context [if ?b then (?q + 1)%Z else ?q] => destruct b end.
    + destruct (Z.eqb_spec (n / 2 ^ (k - 52) + 1) (2 ^ 53)) as [E|E].
      * destruct (971 <? k - 52 + 1)%Z; [left; now split|].
        right. eexists _, _. split; [reflexivity|]. repeat split; try lia.
      * destruct (971 <? k - 52)%Z; [left; now split|].
        right. eexists _, _. split; [reflexivity|]. repeat split; try lia.
    + destruct (Z.eqb_spec (n / 2 ^ (k - 52)) (2 ^ 53)) as [E|E]; [lia|].
      destruct (971 <? k - 52)%Z; [left; now split|].
      right. eexists _, _. split; [reflexivity|]. repeat split; try lia.
  - (* n < 2^52: the integer is represented exactly *)
    assert (Hp : (0 < 2 ^ (- (k - 52)))%Z) by (apply Z.pow_pos_nonneg; lia).
    assert (Hk52 : (2 ^ k * 2 ^ (- (k - 52)) = 2 ^ 52)%Z).
    { rewrite <- Z.pow_add_r by lia. f_equal. lia. }
    rewrite !Z.div_1_r.
    assert (Hq1 : (2 ^ 52 <= n * 2 ^ (- (k - 52)))%Z) by nia.
    assert (Hq2 : (n * 2 ^ (- (k - 52)) < 2 ^ 53)%Z).
    { change (2 ^ 53)%Z with (2 * 2 ^ 52)%Z. nia. }
    destruct (Z.ltb_spec (n * 2 ^ (- (k - 52))) (2 ^ 52)) as [|_]; [lia|].
    rewrite Z.max_l by lia.
    destruct (Z.leb_spec 0 (k - 52)) as [|_]; [lia|].
    rewrite Z.div_1_r, Z.mod_1_r.
    change (1 <? 2 * 0)%Z with false. change (1 =? 2 * 0)%Z with false. cbn [orb andb].
    destruct (Z.eqb_spec (n * 2 ^ (- (k - 52))) (2 ^ 53)) as [E|E]; [lia|].
    destruct (Z.ltb_spec 971 (k - 52)) as [|_]; [lia|].
    right. eexists _, _. split; [reflexivity|]. repeat split; try lia.
Qed.

Lemma round64_zero_test (n : Z) :
  (0 <= n)%Z -> JS.strictEqualsZero (Some (JS.round64 false n 1)) = (n =? 0)%Z.
Proof.
  intros Hn. destruct (Z.eqb_spec n 0) as [->|N]; [reflexivity|].
  destruct (round64_integer n ltac:(lia)) as [[-> _]|(m & e & -> & Hm & _)]; [reflexivity|].
  cbn. apply Z.eqb_neq. assert (0 < 2 ^ 52)%Z by reflexivity. lia.
Qed.

Lemma round64_nine_test (n : Z) :
  (0 <= n)%Z -> JS.lessThanNine (Some (JS.round64 false n 1)) = (n <? 9)%Z.
Proof.
  intros Hn. destruct (Z.eqb_spec n 0) as [->|N]; [reflexivity|].
  assert (H52 : (9 < 2 ^ 52)%Z) by reflexivity.
  destruct (round64_integer n ltac:(lia)) as [[-> Hbig]|(m & e & -> & Hm & Hneg & Hpos)].
  - cbn. symmetry. apply Z.ltb_ge. lia.
  - cbn [JS.lessThanNine].
    destruct (Z.leb_spec 0 e) as [He|He].
    + assert (0 < 2 ^ e)%Z by (apply Z.pow_pos_nonneg; lia).
      specialize (Hpos He).
      destruct (Z.ltb_spec (m * 2 ^ e) 9); destruct (Z.ltb_spec n 9); try reflexivity; nia.
    + rewrite (Hneg He).
      assert (0 < 2 ^ (- e))%Z by (apply Z.pow_pos_nonneg; lia).
      destruct (Z.ltb_spec (n * 2 ^ (- e)) (9 * 2 ^ (- e)));
        destruct (Z.ltb_spec n 9); try reflexivity; nia.
Qed.

(** ** Digit strings *)

Lemma isDigit_value (c : ascii) :
  isDigit c = true ->
  JS.digitValue 10 c = Some (Z.of_nat (nat_of_ascii c) - 48)%Z.
Proof.
  unfold isDigit, JS.digitValue. intros H. apply andb_prop in H. destruct H as [H1 H2].
  apply Nat.leb_le in H1, H2.
  destruct (Z.leb_spec 48 (Z.of_nat (nat_of_ascii c))); [|lia].
  destruct (Z.leb_spec (Z.of_nat (nat_of_ascii c)) 57); [|lia].
  cbn [andb]. destruct (Z.ltb_spec (Z.of_nat (nat_of_ascii c) - 48) 10); [reflexivity | lia].
Qed.

Lemma digits_digitsOnly (s : string) (acc : Z) (count : nat) :
  digitsOnly s = true ->
  JS.digits 10 acc count s = (decimal acc s, (count + String.length s)%nat, "").
Proof.
  revert acc count. induction s as [|c s IH]; intros acc count H.
  - cbn. now rewrite Nat.add_0_r.
  - cbn [digitsOnly] in H. apply andb_prop in H. destruct H as [Hc Hs].
    cbn [JS.digits decimal String.length]. rewrite (isDigit_value c Hc), (IH _ _ Hs).
    f_equal. f_equal. lia.
Qed.

Lemma decimal_nonneg (s : string) (acc : Z) :
  digitsOnly s = true -> (0 <= acc)%Z -> (0 <= decimal acc s)%Z.
Proof.
  revert acc. induction s as [|c s IH]; intros acc H Hacc; [exact Hacc|].
  cbn [digitsOnly] in H. apply andb_prop in H. destruct H as [Hc Hs].
  cbn [decimal]. apply (IH _ Hs).
  unfold isDigit in Hc. apply andb_prop in Hc. destruct Hc as [H1 _].
  apply Nat.leb_le in H1. lia.
Qed.

Lemma isDigit_not_space (c : ascii) : isDigit c = true -> JS.isWhiteSpace c = false.
Proof.
  unfold isDigit, JS.isWhiteSpace. intros H. apply andb_prop in H. destruct H as [H1 H2].
  apply Nat.leb_le in H1, H2.
  destruct (Nat.leb_spec (nat_of_ascii c) 13); [lia|]. rewrite andb_false_r.
  destruct (Nat.eqb_spec (nat_of_ascii c) 32); [lia|].
  destruct (Nat.eqb_spec (nat_of_ascii c) 160); [lia | reflexivity].
Qed.

Lemma trim_digitsOnly (s : string) : digitsOnly s = true -> JS.trim s = s.
Proof.
  intros H. unfold JS.trim.
  assert (Hstart : JS.trimStart s = s).
  { destruct s as [|c s]; [reflexivity|]. cbn in *.
    apply andb_prop in H. now rewrite (isDigit_not_space c (proj1 H)). }
  rewrite Hstart. induction s as [|c s IH]; [reflexivity|].
  cbn [digitsOnly] in H. apply andb_prop in H. destruct H as [Hc Hs].
  cbn [JS.trimEnd]. rewrite IH.
  - destruct s; [now rewrite (isDigit_not_space c Hc) | reflexivity].
  - exact Hs.
  - destruct s as [|c' s]; [reflexivity|]. cbn in *.
    apply andb_prop in Hs. now rewrite (isDigit_not_space c' (proj1 Hs)).
Qed.

Lemma unsignedDecimal_digitsOnly (s : string) :
  digitsOnly s = true -> s <> "" ->
  JS.unsignedDecimal false s = JS.round64 false (decimal 0 s) 1.
Proof.
  intros H Hne. unfold JS.unsignedDecimal.
  assert (Hinf : (s =? "Infinity") = false).
  { apply String.eqb_neq. intros ->. discriminate H. }
  rewrite Hinf, (digits_digitsOnly s 0 0 H).
  destruct s as [|c s]; [now elim Hne|].
  cbn [String.length Nat.add JS.exponentPart]. 
  change (0 - Z.of_nat 0)%Z with 0%Z. cbn [Z.leb Z.compare].
  now rewrite Z.pow_0_r, Z.mul_1_r.
Qed.

(** A string of decimal digits converts to the binary64 nearest to its
    decimal value. *)
Lemma Number_digitsOnly (s : string) :
  digitsOnly s = true -> s <> "" ->
  JS.Number s = JS.round64 false (decimal 0 s) 1.
Proof.
  intros H Hne. rewrite <- (unsignedDecimal_digitsOnly s H Hne).
  unfold JS.Number. rewrite (trim_digitsOnly s H).
  destruct s as [|c s]; [now elim Hne|].
  cbn [digitsOnly] in H. apply andb_prop in H. destruct H as [Hc Hs].
  destruct c as [[] [] [] [] [] [] [] []]; try discriminate Hc; try reflexivity.
  destruct s as [|c' s]; [reflexivity|].
  cbn [digitsOnly] in Hs. apply andb_prop in Hs. destruct Hs as [Hc' _].
  destruct c' as [[] [] [] [] [] [] [] []]; try discriminate Hc'; reflexivity.
Qed.

Lemma digitsOnly_contains (c : ascii) (s : string) :
  isDigit c = false -> digitsOnly s = true -> contains c s = false.
Proof.
  intros Hc. induction s as [|c' s IH]; [reflexivity|].
  cbn [digitsOnly contains]. intros H. apply andb_prop in H. destruct H as [Hc' Hs].
  rewrite (IH Hs), orb_false_r. apply Ascii.eqb_neq. intros ->. congruence.
Qed.

Lemma replace_v_skip (d x : string) :
  contains "v" d = false ->
  JS.replace "v" "" (d ++ x) = d ++ JS.replace "v" "" x.
Proof.
  induction d as [|c d IH]; [reflexivity|].
  cbn [contains]. intros H. apply orb_false_elim in H. destruct H as [Hc Hd].
  rewrite !append_cons. cbn [JS.replace String.prefix].
  destruct (ascii_dec "v" c) as [<-|_]; [discriminate|].
  now rewrite (IH Hd).
Qed.

Lemma split_skip (d x : string) :
  contains "." d = false ->
  JS.split "." (d ++ String "." x) = d :: JS.split "." x.
Proof.
  induction d as [|c d IH]; [reflexivity|].
  cbn [contains]. intros H. apply orb_false_elim in H. destruct H as [Hc Hd].
  rewrite append_cons. cbn [JS.split]. now rewrite Hc, (IH Hd).
Qed.

Lemma split_last (d : string) :
  contains "." d = false -> JS.split "." d = [d].
Proof.
  induction d as [|c d IH]; [reflexivity|].
  cbn [contains]. intros H. apply orb_false_elim in H. destruct H as [Hc Hd].
  cbn [JS.split]. now rewrite Hc, (IH Hd).
Qed.

(** X18. On every version [[v]<major>.<minor>[.<rest>]] with decimal major
    and minor, the gate refuses exactly when major = 0 and minor < 9. *)
Lemma isOldVersion_numbered (leadingV : bool) (major minor : string) (rest : option string) :
  digitsOnly major = true -> major <> "" ->
  digitsOnly minor = true -> minor <> "" ->
  isOldVersion (numbered leadingV major minor rest)
  = (decimal 0 major =? 0)%Z && (decimal 0 minor <? 9)%Z.
Proof.
  intros Hmajor Nmajor Hminor Nminor.
  assert (Hparts : exists others,
             JS.split "." (JS.replace "v" "" (numbered leadingV major minor rest))
             = major :: minor :: others).
  { assert (Hv1 := digitsOnly_contains "v" major eq_refl Hmajor).
    assert (Hv2 := digitsOnly_contains "v" minor eq_refl Hminor).
    assert (Hd1 := digitsOnly_contains "." major eq_refl Hmajor).
    assert (Hd2 := digitsOnly_contains "." minor eq_refl Hminor).
    assert (Hsplit : forall tail : option string,
               exists others,
                 JS.split "." (major ++ "." ++ minor
                               ++ match tail with Some r => "." ++ r | None => "" end)
                 = major :: minor :: others).
    { intros tail. change ("." ++ ?x) with (String "." x).
      rewrite (split_skip _ _ Hd1). destruct tail as [r|].
      - change ("." ++ r) with (String "." r). rewrite (split_skip _ _ Hd2). now eexists.
      - rewrite append_nil_r, (split_last _ Hd2). now eexists. }
    unfold numbered. destruct leadingV.
    - change ("v" ++ ?x) with (String "v" x). rewrite replace_v_leading. apply Hsplit.
    - rewrite append_nil_l, (replace_v_skip _ _ Hv1).
      change ("." ++ ?x) with (String "." x).
      change (JS.replace "v" "" (String "." ?x)) with (String "." (JS.replace "v" "" x)).
      rewrite (replace_v_skip _ _ Hv2).
      destruct rest as [r|].
      + change ("." ++ r) with (String "." r).
        change (JS.replace "v" "" (String "." r)) with (String "." (JS.replace "v" "" r)).
        apply (Hsplit (Some (JS.replace "v" "" r))).
      + apply (Hsplit None). }
  destruct Hparts as [others Hparts].
  unfold isOldVersion. rewrite Hparts. cbn [map nth_error].
  rewrite (Number_digitsOnly _ Hmajor Nmajor), (Number_digitsOnly _ Hminor Nminor).
  rewrite round64_zero_test, round64_nine_test; [reflexivity|..];
    apply decimal_nonneg; (assumption || lia).
Qed.

(** C4. The gate removes the first [v] of the version wherever it stands:
    the version [0.v8.0], whose second component [v8] is no number, is
    taken for 0.8.0 and refused, where the gate as specified (only a
    leading [v] stripped) permits it; on darwin/arm64 without prebuilt
    binaries the run then ends with the failure of lines 96-100.  The three
    sample versions are classified as specified.  ([isOldVersion_refines],
    [isOldVersion_fail_open] and [isOldVersion_numbered] give the rest of
    the gate.) *)
Theorem isOldVersion_removes_inner_v :
  isOldVersion "0.v8.0" = true /\
  Spec.supportsSourceBuild "0.v8.0" = true /\
  failures (snd (run (main macArm posix (request "0.v8.0")) sourceOnly))
  = [sourceBuildIneligible "0.v8.0"] /\
  negb (isOldVersion "v0.8.0") = false /\
  negb (isOldVersion "v0.9.0") = true /\
  negb (isOldVersion "v1.2.0") = true.
Proof. vm_compute. repeat split. Qed.

(* ===================================================================== *)
(** * The shape of every run *)
(* ===================================================================== *)

Lemma probes_cons (e : event) (t : trace) :
  probes (e :: t) = (probes [e] ++ probes t)%list.
Proof.
  destruct e as [m|m|d|c r]; try reflexivity.
  destruct c as [| | |cmd args opts| | |]; try reflexivity.
  do 5 (destruct cmd as [|[[] [] [] [] [] [] [] []] cmd]; try reflexivity).
  destruct cmd as [|c cmd]; [|reflexivity].
  destruct args as [|name [|x args]]; reflexivity.
Qed.

Lemma probes_app (t1 t2 : trace) : probes (t1 ++ t2) = (probes t1 ++ probes t2)%list.
Proof.
  induction t1 as [|e t1 IH]; [reflexivity|].
  rewrite <- app_comm_cons, probes_cons, IH, (probes_cons e t1). apply app_assoc.
Qed.

(** A run of [main] is its preamble, the cascade and an ending; it never
    throws. *)
Lemma main_shape process path input w :
  exists fpmVersion tr hit ta rest,
    run (main process path input) w
    = (Returned tt, (preamble process input fpmVersion tr ++ ta ++ rest)%list) /\
    resolveVersion (github_token input) (fpm_version input) w
                   [ConsoleLog ("fpm-version: " ++ fpm_version input);
                    ConsoleLog ("fpm-repository: " ++ fpm_repository input)]
    = (Returned fpmVersion, tr) /\
    acquire process fpmVersion (fpm_repository input ++ "/releases/download/" ++ fpmVersion ++ "/")
            w (preamble process input fpmVersion tr)
    = (Returned (option_map snd hit), ta) /\
    cascade (map (append (fpm_repository input ++ "/releases/download/" ++ fpmVersion ++ "/"))
                 (candidates fpmVersion (platform process) (arch process)))
            (downloads ta) hit /\
    forallb cascadeEvent ta = true /\
    ending process path fpmVersion (fpm_repository input) w
           (preamble process input fpmVersion tr ++ ta) (option_map snd hit) rest.
Proof.
  rewrite main_from_start. cbv zeta.
  destruct (resolveVersion_total (github_token input) (fpm_version input) w
              [ConsoleLog ("fpm-version: " ++ fpm_version input);
               ConsoleLog ("fpm-repository: " ++ fpm_repository input)])
    as (fpmVersion & tr & Er & _ & _).
  rewrite Er. rewrite download_run.
  fold (preamble process input fpmVersion tr).
  destruct (acquire_cascade process fpmVersion
              (fpm_repository input ++ "/releases/download/" ++ fpmVersion ++ "/") w
              (preamble process input fpmVersion tr))
    as (hit & ta & Ea & Hc & He).
  rewrite Ea.
  exists fpmVersion, tr, hit, ta.
  destruct hit as [[u fpmPath]|]; cbn [option_map snd] in *; cbv beta iota.
  - destruct (finalize process path (Some fpmPath) w
                (preamble process input fpmVersion tr ++ ta)%list) as [[[]|m] tf] eqn:Ef.
    + exists tf. repeat split; auto. now constructor.
    + exists (tf ++ [SetFailed m])%list. repeat split; auto. now constructor.
  - rewrite noPrebuilt_run.
    destruct (String.eqb_spec (platform process) "darwin") as [Hp|Hp];
      [destruct (String.eqb_spec (arch process) "arm64") as [Ha|Ha]|]; cbn [andb].
    + destruct (isOldVersion fpmVersion) eqn:Hold; cbv zeta.
      * eexists. split; [reflexivity|]. repeat split; auto. now constructor.
      * match goal with |- context [installFromSource _ _ _ _ w ?h'] =>
          destruct (installFromSource_entered process path fpmVersion (fpm_repository input) w h')
            as (ti & Ei & _) end.
        rewrite Ei. eexists. split; [reflexivity|]. repeat split; auto. now constructor.
    + rewrite finalize_undefined. eexists. split; [rewrite <- ?app_assoc; reflexivity|].
      repeat split; auto. apply ending_no_fallback.
      destruct (String.eqb_spec (platform process) "darwin"); [|reflexivity].
      destruct (String.eqb_spec (arch process) "arm64"); [contradiction | reflexivity].
    + rewrite finalize_undefined. eexists. split; [rewrite <- ?app_assoc; reflexivity|].
      repeat split; auto. apply ending_no_fallback.
      destruct (String.eqb_spec (platform process) "darwin"); [contradiction | reflexivity].
Qed.

(** ** What each stage leaves in the trace *)

Lemma which_only_downloads (t : trace) :
  forallb isWhich (calls t) = true -> downloads t = [].
Proof.
  induction t as [|e t IH]; [reflexivity|].
  destruct e as [m|m|d|c r]; cbn [calls downloads forallb]; auto.
  intros H. apply andb_prop in H. destruct H as [Hc Ht].
  destruct c; try discriminate. cbn. auto.
Qed.

Lemma In_firstn {A} (x : A) (n : nat) (l : list A) : In x (firstn n l) -> In x l.
Proof.
  revert n. induction l as [|a l IH]; intros [|n]; cbn; try tauto.
  intros [H|H]; [now left | right; eauto].
Qed.

Lemma resolveVersion_observed token fpmVersion w h :
  exists version tr,
    resolveVersion token fpmVersion w h = (Returned version, tr) /\
    calls tr = (if fpmVersion =? "latest" then [LatestRelease token] else []) /\
    paths tr = [] /\
    downloads tr = [] /\
    ((fpmVersion =? "latest") = false -> version = fpmVersion /\ tr = []).
Proof.
  rewrite resolveVersion_run.
  destruct (fpmVersion =? "latest").
  - cbv zeta. destruct (token =? "none"); destruct (w _ _);
      eexists _, _; (split; [reflexivity|]); repeat split; discriminate.
  - eexists _, _. split; [reflexivity|]. now repeat split.
Qed.

(** The finalization of a download: its calls are an initial segment of
    the final steps, and the directory is registered when it returns. *)
Lemma finalize_observed process path fpmPath w h :
  exists r tf n,
    finalize process path (Some fpmPath) w h = (r, tf) /\
    calls tf = firstn n (finalSteps process path fpmPath) /\
    downloads tf = [] /\
    failures tf = [] /\
    paths tf = match r with
               | Returned _ => [dirname path fpmPath]
               | Thrown _ => []
               end.
Proof.
  rewrite finalize_run. unfold finalSteps. cbv zeta.
  destruct ((platform process =? "linux") || (platform process =? "darwin"));
    answers w;
    first [ solve [eexists _, _, 2%nat; repeat split]
          | solve [eexists _, _, 1%nat; repeat split] ].
Qed.

(** Discovery: the selected compiler was found by a probe; when none is
    selected, the five probes were rejected. *)
Lemma discoverCompiler_selected w h :
  exists selected td,
    discoverCompiler w h = (Returned selected, td) /\
    forallb isWhich (calls td) = true /\
    paths td = [] /\
    match selected with
    | Some name => (exists v, In (name, Resolved v) (probes td)) /\ failures td = []
    | None =>
        Forall rejected (probes td) /\ List.length (probes td) = 5%nat /\
        failures td = [compilerNotFound]
    end.
Proof.
  unfold discoverCompiler. cbn [probeVersioned]. unfold_monad.
  answers w; cbn; eexists _, _; (split; [reflexivity|]); (split; [reflexivity|]);
    (split; [reflexivity|]);
    first [ solve [split; [eexists; cbn; auto 10 | reflexivity]]
          | solve [split; [repeat constructor | split; reflexivity]] ].
Qed.

(** The build: the source archive is the one download it makes. *)
Lemma buildAndInstall_downloads process path fpmVersion fpmRepo gfortranCmd w h :
  exists r,
    downloads (snd (buildAndInstall process path fpmVersion fpmRepo gfortranCmd w h))
    = [(tarballUrl fpmVersion fpmRepo, r)].
Proof.
  unfold buildAndInstall. unfold_monad. answers w; eexists; reflexivity.
Qed.

Lemma which_only_index (l : list call) :
  forallb isWhich l = true -> existsb isLatestRelease l = false.
Proof.
  induction l as [|c l IH]; [reflexivity|].
  cbn [forallb]. intros H. apply andb_prop in H. destruct H as [Hc Hl].
  destruct c; try discriminate. cbn. auto.
Qed.

(** The pipeline as a whole. *)
Lemma installFromSource_observed process path fpmVersion fpmRepo w h :
  exists t,
    installFromSource process path fpmVersion fpmRepo w h = (Returned tt, t) /\
    (paths t = [] \/ paths t = [installDir process path]) /\
    (failures t = [] -> paths t = [installDir process path]) /\
    existsb isMv (calls t) = false /\
    existsb isChmod (calls t) = false /\
    existsb isLatestRelease (calls t) = false /\
    (downloads t = [] \/ exists r, downloads t = [(tarballUrl fpmVersion fpmRepo, r)]).
Proof.
  rewrite installFromSource_run.
  destruct (discoverCompiler_selected w h) as (selected & td & -> & Hw & Hp & Hsel).
  destruct (which_only _ Hw) as (Hc & Hm & _).
  pose proof (which_only_index _ Hw) as Hi.
  pose proof (which_only_downloads _ Hw) as Hd.
  destruct selected as [cmd|].
  - destruct Hsel as [_ Hf].
    destruct (buildAndInstall_downloads process path fpmVersion fpmRepo cmd w (h ++ td)%list)
      as (x & Hx).
    destruct (buildAndInstall_stages process path fpmVersion fpmRepo cmd w (h ++ td)%list)
      as (r & tb & tarballPath & n & E & Hcalls & Hfail & Hpaths & _ & Hr).
    rewrite E in *. cbn [snd] in Hx.
    assert (Hpaths' : paths tb = [] \/ paths tb = [installDir process path])
      by (rewrite Hpaths; destruct (6 <=? n)%nat; auto).
    assert (Hs : existsb isMv (calls tb) = false /\ existsb isChmod (calls tb) = false /\
                 existsb isLatestRelease (calls tb) = false).
    { rewrite Hcalls. repeat split; now apply existsb_firstn. }
    destruct Hs as (Hs1 & Hs2 & Hs3).
    destruct r as [[]|m]; eexists; (split; [reflexivity|]);
      rewrite ?calls_app, ?paths_app, ?failures_app, ?downloads_app, ?existsb_app,
        Hc, Hm, Hi, Hd, Hp, Hf, Hs1, Hs2, Hs3, Hfail, Hx; cbn [app orb paths failures calls downloads existsb].
    + destruct Hr as [-> _]. rewrite Hpaths. repeat split; eauto.
    + rewrite app_nil_r. repeat split; eauto. discriminate.
  - destruct Hsel as (_ & _ & Hf). exists td. rewrite Hc, Hm, Hi, Hd, Hp, Hf.
    repeat split; auto. discriminate.
Qed.

Lemma finalSteps_kind process path fpmPath (c : call) :
  In c (finalSteps process path fpmPath) ->
  isLatestRelease c = false /\ isDownloadTool c = false /\ isWhich c = false.
Proof.
  unfold finalSteps.
  destruct ((platform process =? "linux") || (platform process =? "darwin"));
    cbn; intros H; repeat destruct H as [<-|H]; try contradiction; now repeat split.
Qed.

(** The ending of a run. *)
Lemma ending_observed process path fpmVersion fpmRepo w h obtained rest :
  ending process path fpmVersion fpmRepo w h obtained rest ->
  (paths rest = [] \/
   (obtained = None /\ paths rest = [installDir process path]) \/
   (exists fpmPath, obtained = Some fpmPath /\ paths rest = [dirname path fpmPath])) /\
  (failures rest = [] -> paths rest <> []) /\
  existsb isLatestRelease (calls rest) = false /\
  (downloads rest = [] \/
   (obtained = None /\ platform process = "darwin" /\ arch process = "arm64" /\
    exists r, downloads rest = [(tarballUrl fpmVersion fpmRepo, r)])) /\
  (forall c, In c (calls rest) -> isMv c = true \/ isChmod c = true ->
             exists fpmPath, obtained = Some fpmPath /\ In c (finalSteps process path fpmPath)).
Proof.
  intros H. destruct H as [fpmPath tf Ef|fpmPath m tf Ef|Hp Ha Hold|ti Hp Ha Hold Ei|Hne].
  - destruct (finalize_observed process path fpmPath w h) as (r & tf' & n & E & Hc & Hd & Hf & Hpa).
    rewrite Ef in E. injection E as <- <-.
    repeat split.
    + right. right. now exists fpmPath.
    + rewrite Hpa. discriminate.
    + rewrite Hc. apply not_true_is_false. intros Hx. apply existsb_exists in Hx.
      destruct Hx as (c & Hin & Hk). apply In_firstn in Hin.
      destruct (finalSteps_kind _ _ _ _ Hin) as (K & _). congruence.
    + now left.
    + intros c Hin _. exists fpmPath. split; [reflexivity|].
      rewrite Hc in Hin. now apply In_firstn in Hin.
  - destruct (finalize_observed process path fpmPath w h) as (r & tf' & n & E & Hc & Hd & Hf & Hpa).
    rewrite Ef in E. injection E as <- <-.
    rewrite calls_app, paths_app, failures_app, downloads_app, Hpa, Hf, Hd. cbn.
    rewrite app_nil_r. repeat split.
    + now left.
    + discriminate.
    + rewrite Hc. apply not_true_is_false. intros Hx. apply existsb_exists in Hx.
      destruct Hx as (c & Hin & Hk). apply In_firstn in Hin.
      destruct (finalSteps_kind _ _ _ _ Hin) as (K & _). congruence.
    + now left.
    + intros c Hin _. exists fpmPath. split; [reflexivity|].
      rewrite Hc in Hin. now apply In_firstn in Hin.
  - cbn. repeat split; auto; try discriminate. intros c [].
  - destruct (installFromSource_observed process path fpmVersion fpmRepo w
                (h ++ [ConsoleLog "No pre-built ARM64 binary found, falling back to building from source"])%list)
      as (t & E & Hpa & Hfp & Hm & Hc & Hi & Hd).
    rewrite Ei in E. injection E as <-.
    cbn [paths failures calls downloads]. repeat split; auto.
    + destruct Hpa as [->| ->]; auto.
    + intros Hf. rewrite (Hfp Hf). discriminate.
    + destruct Hd as [->|(r & ->)]; [now left | right; repeat split; eauto].
    + intros c Hin [K|K]; exfalso.
      * assert (X : existsb isMv (calls ti) = true) by (apply existsb_exists; eauto). congruence.
      * assert (X : existsb isChmod (calls ti) = true) by (apply existsb_exists; eauto). congruence.
  - cbn. repeat split; auto; try discriminate. intros c [].
Qed.

Lemma preamble_observed process input fpmVersion tr :
  calls (preamble process input fpmVersion tr) = calls tr /\
  paths (preamble process input fpmVersion tr) = paths tr /\
  downloads (preamble process input fpmVersion tr) = downloads tr /\
  failures (preamble process input fpmVersion tr)
  = (failures tr ++ failures (unknownPlatform (platform process)))%list.
Proof.
  unfold preamble.
  destruct (cascadeEvent_calls _ (cascadeEvent_unknown (platform process))) as [Hc Hp].
  rewrite downloads_unknown in Hc. cbn [map] in Hc.
  rewrite !calls_app, !paths_app, !downloads_app, !failures_app, Hc, Hp, downloads_unknown.
  cbn. now rewrite !app_nil_r.
Qed.

Lemma existsb_filter {A} (f : A -> bool) (l : list A) :
  existsb f l = false -> filter f l = [].
Proof.
  induction l as [|a l IH]; [reflexivity|]. cbn. intros H.
  apply orb_false_elim in H. destruct H as [-> H]. auto.
Qed.

Lemma cascade_length names attempts hit :
  cascade names attempts hit -> (List.length attempts <= List.length names)%nat.
Proof. induction 1; cbn; lia. Qed.

Lemma prefix_append (a b : string) : String.prefix a (a ++ b) = true.
Proof.
  induction a as [|c a IH]; [now destruct b|].
  rewrite append_cons. cbn [String.prefix]. destruct (ascii_dec c c); [exact IH | contradiction].
Qed.

(* ===================================================================== *)
(** * Every run of [main] *)
(* ===================================================================== *)

(** X1. Neither [main] nor [installFromSource] lets an error escape:
    whatever the world answers, both return, every rejection being either
    expected (a candidate that is not there, a compiler that is not
    installed) or turned into a recorded failure by a [catch]. *)
Theorem main_never_rejects process path input w :
  fst (run (main process path input) w) = Returned tt /\
  forall fpmVersion fpmRepo h,
    fst (installFromSource process path fpmVersion fpmRepo w h) = Returned tt.
Proof.
  split; [apply main_returns|]. intros fpmVersion fpmRepo h.
  destruct (installFromSource_observed process path fpmVersion fpmRepo w h) as (t & -> & _).
  reflexivity.
Qed.

(** X2. A run of [main] registers at most one directory on the PATH: the
    directory of a file it downloaded, or the install directory of the
    source build. *)
Theorem path_registered_at_most_once process path input w :
  let t := snd (run (main process path input) w) in
  paths t = [] \/
  paths t = [installDir process path] \/
  exists url fpmPath,
    In (url, Resolved fpmPath) (downloads t) /\ paths t = [dirname path fpmPath].
Proof.
  cbv zeta.
  destruct (main_shape process path input w)
    as (fpmVersion & tr & hit & ta & rest & -> & Er & Ea & Hc & He & Hend).
  destruct (resolveVersion_observed (github_token input) (fpm_version input) w
              [ConsoleLog ("fpm-version: " ++ fpm_version input);
               ConsoleLog ("fpm-repository: " ++ fpm_repository input)])
    as (v' & tr' & Er' & _ & Hptr & _).
  rewrite Er in Er'. injection Er' as <- <-.
  destruct (preamble_observed process input fpmVersion tr) as (_ & Hpp & _).
  destruct (cascadeEvent_calls _ He) as [_ Hpa].
  destruct (ending_observed _ _ _ _ _ _ _ _ Hend) as (Hpaths & _).
  cbn [snd]. rewrite !paths_app, Hpp, Hptr, Hpa. cbn [app].
  destruct Hpaths as [->|[[_ ->]|(fpmPath & Hob & ->)]]; auto.
  right. right. destruct hit as [[u p]|]; [|discriminate].
  injection Hob as ->.
  destruct (cascade_first_hit _ _ _ _ Hc) as (failed & Hd & _).
  exists u, fpmPath. split; [|reflexivity].
  rewrite !downloads_app, Hd. apply in_or_app. right. apply in_or_app. left.
  apply in_or_app. right. now left.
Qed.

(** X3. A run of [main] that records no failure has registered exactly one
    directory on the PATH. *)
Theorem no_failure_means_registered process path input w
        (Hclean : failures (snd (run (main process path input) w)) = []) :
  exists dir, paths (snd (run (main process path input) w)) = [dir].
Proof.
  revert Hclean.
  destruct (main_shape process path input w)
    as (fpmVersion & tr & hit & ta & rest & -> & Er & Ea & Hc & He & Hend).
  destruct (resolveVersion_observed (github_token input) (fpm_version input) w
              [ConsoleLog ("fpm-version: " ++ fpm_version input);
               ConsoleLog ("fpm-repository: " ++ fpm_repository input)])
    as (v' & tr' & Er' & _ & Hptr & _).
  rewrite Er in Er'. injection Er' as <- <-.
  destruct (preamble_observed process input fpmVersion tr) as (_ & Hpp & _).
  destruct (cascadeEvent_calls _ He) as [_ Hpa].
  destruct (ending_observed _ _ _ _ _ _ _ _ Hend) as (Hpaths & Hclean & _).
  cbn [snd]. rewrite !failures_app, !paths_app, Hpp, Hptr, Hpa. cbn [app].
  intros H. apply app_eq_nil in H. destruct H as [_ H].
  apply app_eq_nil in H. destruct H as [_ H]. specialize (Hclean H).
  destruct Hpaths as [E|[[_ E]|(fpmPath & _ & E)]]; rewrite E in *; eauto.
  now elim Hclean.
Qed.

Lemma no_failure_means_registered_witness :
  failures (snd (run (main linux64 posix (request "v0.10.1")) indexAnswers)) = [] /\
  exists dir, paths (snd (run (main linux64 posix (request "v0.10.1")) indexAnswers)) = [dir].
Proof.
  split; [reflexivity|].
  exact (no_failure_means_registered linux64 posix (request "v0.10.1") indexAnswers eq_refl).
Defined.

(** X4. The release index is queried exactly when the requested version is
    [latest], and then once, with the token that was given. *)
Theorem release_index_only_for_latest process path input w :
  filter isLatestRelease (calls (snd (run (main process path input) w)))
  = if fpm_version input =? "latest" then [LatestRelease (github_token input)] else [].
Proof.
  destruct (main_shape process path input w)
    as (fpmVersion & tr & hit & ta & rest & -> & Er & Ea & Hc & He & Hend).
  destruct (resolveVersion_observed (github_token input) (fpm_version input) w
              [ConsoleLog ("fpm-version: " ++ fpm_version input);
               ConsoleLog ("fpm-repository: " ++ fpm_repository input)])
    as (v' & tr' & Er' & Hctr & _).
  rewrite Er in Er'. injection Er' as <- <-.
  destruct (preamble_observed process input fpmVersion tr) as (Hcp & _).
  destruct (cascadeEvent_calls _ He) as [Hca _].
  destruct (ending_observed _ _ _ _ _ _ _ _ Hend) as (_ & _ & Hi & _).
  cbn [snd]. rewrite !calls_app, !filter_app, Hcp, Hctr, (existsb_filter _ _ Hi), Hca.
  rewrite (existsb_filter isLatestRelease (map _ (downloads ta)))
    by now apply existsb_map_DownloadTool.
  rewrite !app_nil_r. now destruct (fpm_version input =? "latest").
Qed.

(** X5. Every download of a run of [main] is from the repository given as
    input: its url starts with [fpm-repository]. *)
Theorem downloads_only_from_repository process path input w :
  Forall (fun d => String.prefix (fpm_repository input) (fst d) = true)
         (downloads (snd (run (main process path input) w))).
Proof.
  destruct (main_shape process path input w)
    as (fpmVersion & tr & hit & ta & rest & -> & Er & Ea & Hc & He & Hend).
  destruct (resolveVersion_observed (github_token input) (fpm_version input) w
              [ConsoleLog ("fpm-version: " ++ fpm_version input);
               ConsoleLog ("fpm-repository: " ++ fpm_repository input)])
    as (v' & tr' & Er' & _ & _ & Hdtr & _).
  rewrite Er in Er'. injection Er' as <- <-.
  destruct (preamble_observed process input fpmVersion tr) as (_ & _ & Hdp & _).
  destruct (ending_observed _ _ _ _ _ _ _ _ Hend) as (_ & _ & _ & Hd & _).
  cbn [snd]. rewrite !downloads_app, Hdp, Hdtr. cbn [app].
  apply Forall_app. split.
  - apply Forall_forall. intros d Hin.
    assert (Hu : In (fst d) (map fst (downloads ta))) by now apply in_map.
    rewrite (cascade_in_order _ _ _ Hc) in Hu. apply In_firstn in Hu.
    apply in_map_iff in Hu. destruct Hu as (f & <- & _).
    rewrite append_assoc. apply prefix_append.
  - destruct Hd as [->|(_ & _ & _ & r & ->)]; [constructor|].
    constructor; [|constructor]. apply prefix_append.
Qed.

(** X6. A run of [main] marks executable, and renames, only a file it
    downloaded itself: every [chmod] and every [io.mv] it performs is one of
    the final steps for a path that a download of this run resolved to. *)
Theorem only_downloaded_files_are_touched process path input w (c : call)
        (Hc : In c (calls (snd (run (main process path input) w))))
        (Hkind : isMv c = true \/ isChmod c = true) :
  exists url fpmPath,
    In (url, Resolved fpmPath) (downloads (snd (run (main process path input) w))) /\
    In c (finalSteps process path fpmPath).
Proof.
  revert Hc.
  destruct (main_shape process path input w)
    as (fpmVersion & tr & hit & ta & rest & -> & Er & Ea & Hcas & He & Hend).
  destruct (resolveVersion_observed (github_token input) (fpm_version input) w
              [ConsoleLog ("fpm-version: " ++ fpm_version input);
               ConsoleLog ("fpm-repository: " ++ fpm_repository input)])
    as (v' & tr' & Er' & Hctr & _).
  rewrite Er in Er'. injection Er' as <- <-.
  destruct (preamble_observed process input fpmVersion tr) as (Hcp & _).
  destruct (cascadeEvent_calls _ He) as [Hca _].
  destruct (ending_observed _ _ _ _ _ _ _ _ Hend) as (_ & _ & _ & _ & Htouch).
  cbn [snd]. rewrite !calls_app, Hcp, Hctr, Hca. intros Hin.
  apply in_app_or in Hin. destruct Hin as [Hin|Hin].
  { exfalso. destruct (fpm_version input =? "latest"); [|contradiction].
    destruct Hin as [<-|[]]. now destruct Hkind. }
  apply in_app_or in Hin. destruct Hin as [Hin|Hin].
  { exfalso. apply in_map_iff in Hin. destruct Hin as (d & <- & _). now destruct Hkind. }
  destruct (Htouch c Hin Hkind) as (fpmPath & Hob & Hsteps).
  destruct hit as [[u p]|]; [|discriminate]. injection Hob as ->.
  destruct (cascade_first_hit _ _ _ _ Hcas) as (failed & Hd & _).
  exists u, fpmPath. split; [|exact Hsteps].
  rewrite !downloads_app, Hd. apply in_or_app. right. apply in_or_app. left.
  apply in_or_app. right. now left.
Qed.

Lemma only_downloaded_files_are_touched_witness :
  exists url fpmPath,
    In (url, Resolved fpmPath)
       (downloads (snd (run (main linux64 posix (request "v0.10.1")) indexAnswers))) /\
    In (Mv "/tmp/dl/fpm" "/tmp/dl/fpm") (finalSteps linux64 posix fpmPath).
Proof.
  apply (only_downloaded_files_are_touched linux64 posix (request "v0.10.1") indexAnswers
           (Mv "/tmp/dl/fpm" "/tmp/dl/fpm")).
  - vm_compute. auto.
  - now left.
Defined.

(** X7. On a platform that is none of linux, darwin and win32 every run of
    [main] is marked failed with [Unknown platform], whatever is downloaded
    and registered afterwards. *)
Theorem unknown_platform_marks_the_run_failed process path input w
        (Hunknown : knownPlatform (platform process) = false) :
  In "Unknown platform" (failures (snd (run (main process path input) w))).
Proof.
  destruct (main_shape process path input w)
    as (fpmVersion & tr & hit & ta & rest & -> & _).
  destruct (preamble_observed process input fpmVersion tr) as (_ & _ & _ & Hf).
  cbn [snd]. rewrite !failures_app, Hf. unfold unknownPlatform. rewrite Hunknown.
  apply in_or_app. left. apply in_or_app. right. now left.
Qed.

Lemma unknown_platform_marks_the_run_failed_witness :
  knownPlatform (platform freebsd) = false /\
  In "Unknown platform"
     (failures (snd (run (main freebsd posix (request "v0.10.1")) indexAnswers))).
Proof.
  split; [reflexivity|].
  exact (unknown_platform_marks_the_run_failed freebsd posix (request "v0.10.1")
           indexAnswers eq_refl).
Defined.

(** X8. A run of [main] makes at most seven downloads: at most the six
    candidates, and the source archive, which is downloaded only on
    darwin/arm64. *)
Theorem at_most_seven_downloads process path input w :
  let t := snd (run (main process path input) w) in
  (List.length (downloads t) <= 7)%nat /\
  ((platform process =? "darwin") && (arch process =? "arm64") = false ->
   (List.length (downloads t) <= 6)%nat).
Proof.
  cbv zeta.
  destruct (main_shape process path input w)
    as (fpmVersion & tr & hit & ta & rest & -> & Er & Ea & Hc & He & Hend).
  destruct (resolveVersion_observed (github_token input) (fpm_version input) w
              [ConsoleLog ("fpm-version: " ++ fpm_version input);
               ConsoleLog ("fpm-repository: " ++ fpm_repository input)])
    as (v' & tr' & Er' & _ & _ & Hdtr & _).
  rewrite Er in Er'. injection Er' as <- <-.
  destruct (preamble_observed process input fpmVersion tr) as (_ & _ & Hdp & _).
  destruct (ending_observed _ _ _ _ _ _ _ _ Hend) as (_ & _ & _ & Hd & _).
  pose proof (cascade_length _ _ _ Hc) as Hlen.
  rewrite length_map in Hlen. change (List.length (candidates _ _ _)) with 6%nat in Hlen.
  cbn [snd]. rewrite !downloads_app, Hdp, Hdtr, !length_app. cbn [List.length].
  destruct Hd as [->|(_ & Hp & Ha & r & ->)]; cbn [List.length].
  - split; intros; lia.
  - split; [lia|]. rewrite Hp, Ha. discriminate.
Qed.

(* ===================================================================== *)
(** * Every run of [installFromSource] *)
(* ===================================================================== *)

(** X9. The only command [installFromSource] executes besides its [which]
    probes is the install script of the unpacked sources, run by [bash] with
    the install prefix, and the compiler it is given as [FC] is one that a
    probe of the same run found. *)
Theorem install_uses_a_found_compiler process path fpmVersion fpmRepo w h
        commandLine args options
        (Hin : In (Exec commandLine args options)
                  (calls (snd (installFromSource process path fpmVersion fpmRepo w h))))
        (Hother : commandLine <> "which") :
  commandLine = "bash" /\
  args = [join path (join path (buildDir process path)
                          ("fpm-" ++ JS.replace "v" "" fpmVersion)) "install.sh";
          "--prefix=" ++ installPrefix process path] /\
  exists name v,
    FC options = Some name /\
    In (name, Resolved v)
       (probes (snd (installFromSource process path fpmVersion fpmRepo w h))).
Proof.
  revert Hin. rewrite installFromSource_run.
  destruct (discoverCompiler_selected w h) as (selected & td & -> & Hw & _ & Hsel).
  assert (Hprobe : In (Exec commandLine args options) (calls td) -> False).
  { intros Hin. rewrite forallb_forall in Hw. specialize (Hw _ Hin).
    apply String.eqb_eq in Hw. contradiction. }
  destruct selected as [cmd|]; [|now intros Hin; elim Hprobe].
  destruct Hsel as [(v & Hv) _].
  destruct (buildAndInstall_stages process path fpmVersion fpmRepo cmd w (h ++ td)%list)
    as (r & tb & tarballPath & n & -> & Hcalls & _).
  assert (Hstage : In (Exec commandLine args options) (calls tb) ->
                   commandLine = "bash" /\
                   args = [join path (join path (buildDir process path)
                                           ("fpm-" ++ JS.replace "v" "" fpmVersion))
                                "install.sh";
                           "--prefix=" ++ installPrefix process path] /\
                   FC options = Some cmd).
  { rewrite Hcalls. intros Hin. apply In_firstn in Hin.
    destruct Hin as [H|[H|[H|[H|[H|[H|[]]]]]]]; try discriminate.
    injection H as <- <- <-. now repeat split. }
  destruct r as [[]|m]; cbn [snd]; rewrite !calls_app, !probes_app; intros Hin;
    apply in_app_or in Hin; destruct Hin as [Hin|Hin]; try (now elim Hprobe).
  - destruct (Hstage Hin) as (-> & -> & HFC). repeat split.
    exists cmd, v. split; [exact HFC|]. apply in_or_app. now left.
  - apply in_app_or in Hin. destruct Hin as [Hin|[]].
    destruct (Hstage Hin) as (-> & -> & HFC). repeat split.
    exists cmd, v. split; [exact HFC|]. apply in_or_app. now left.
Qed.

Lemma install_uses_a_found_compiler_witness :
  "bash" = "bash" /\
  ["/tmp/runner/fpm-build/fpm-0.10.1/install.sh"; "--prefix=/Users/runner/.local"]
  = [join posix (join posix (buildDir macArm posix) ("fpm-" ++ JS.replace "v" "" "v0.10.1"))
          "install.sh";
     "--prefix=" ++ installPrefix macArm posix] /\
  exists name v,
    FC {| silent := false; cwd := Some "/tmp/runner/fpm-build/fpm-0.10.1";
          FC := Some "gfortran-12" |} = Some name /\
    In (name, Resolved v)
       (probes (snd (installFromSource macArm posix "v0.10.1" upstream sourceOnly []))).
Proof.
  apply (install_uses_a_found_compiler macArm posix "v0.10.1" upstream sourceOnly []).
  - vm_compute. tauto.
  - discriminate.
Defined.

(** X10. [installFromSource] starts the build only with a compiler: either
    every probe was rejected, and then it has executed nothing but the
    probes, downloaded nothing, registered nothing and recorded the
    remediation text as its failure; or a probe found a compiler, and the
    source archive of the requested tag is the one download it made. *)
Theorem build_starts_only_with_a_compiler process path fpmVersion fpmRepo w h :
  let t := snd (installFromSource process path fpmVersion fpmRepo w h) in
  (Forall rejected (probes t) /\ forallb isWhich (calls t) = true /\
   downloads t = [] /\ paths t = [] /\ failures t = [compilerNotFound])
  \/
  (exists name v, In (name, Resolved v) (probes t)) /\
  exists r, downloads t = [(tarballUrl fpmVersion fpmRepo, r)].
Proof.
  cbv zeta. rewrite installFromSource_run.
  destruct (discoverCompiler_selected w h) as (selected & td & -> & Hw & Hp & Hsel).
  pose proof (which_only_downloads _ Hw) as Hd.
  destruct selected as [cmd|].
  - right. destruct Hsel as [(v & Hv) _].
    destruct (buildAndInstall_downloads process path fpmVersion fpmRepo cmd w (h ++ td)%list)
      as (r & Hr).
    destruct (buildAndInstall process path fpmVersion fpmRepo cmd w (h ++ td)%list)
      as [[[]|m] tb]; cbn [snd] in *;
      rewrite !probes_app, !downloads_app, Hd, Hr; cbn [app downloads];
      (split; [exists cmd, v; apply in_or_app; now left | now exists r]).
  - left. destruct Hsel as (Hrej & _ & Hf). cbn [snd]. now repeat split.
Qed.

Lemma append_inj_l (a b c : string) : a ++ b = a ++ c -> b = c.
Proof.
  induction a as [|x a IH]; [trivial|].
  rewrite !append_cons. intros H. injection H as H. auto.
Qed.

Lemma NoDup_firstn {A} (n : nat) (l : list A) : NoDup l -> NoDup (firstn n l).
Proof.
  revert n. induction l as [|a l IH]; intros [|n] H; cbn; try constructor.
  - inversion H; subst. intros Hin. apply In_firstn in Hin. contradiction.
  - inversion H; subst. auto.
Qed.

Lemma NoDup_map_injective {A B} (f : A -> B) (l : list A) :
  (forall x y, f x = f y -> x = y) -> NoDup l -> NoDup (map f l).
Proof.
  intros Hf. induction 1 as [|a l Hin _ IH]; cbn; constructor; [|exact IH].
  intros H. apply in_map_iff in H. destruct H as (b & Hb & Hl).
  apply Hf in Hb. now subst b.
Qed.

Lemma lastChar_append (a b : string) : b <> "" -> lastChar (a ++ b) = lastChar b.
Proof.
  intros Hb. induction a as [|x a IH]; [reflexivity|].
  rewrite append_cons. cbn [lastChar]. rewrite IH.
  destruct (a ++ b) eqn:E; [|reflexivity].
  destruct a; [cbn in E; contradiction | discriminate].
Qed.

Lemma endsWith_cons (suffix : string) (c : ascii) (s : string) :
  endsWith suffix (String c s) = (String c s =? suffix) || endsWith suffix s.
Proof. reflexivity. Qed.

Lemma endsWith_nil (suffix : string) : endsWith suffix "" = true -> suffix = "".
Proof. destruct suffix; [reflexivity | discriminate]. Qed.

Lemma endsWith_lastChar (suffix s : string) :
  suffix <> "" -> endsWith suffix s = true -> lastChar s = lastChar suffix.
Proof.
  intros Hs. induction s as [|c s IH].
  - intros H. now apply endsWith_nil in H.
  - rewrite endsWith_cons. intros H. apply orb_prop in H. destruct H as [H|H].
    + apply String.eqb_eq in H. now rewrite H.
    + rewrite <- (IH H). destruct s; [|reflexivity]. now apply endsWith_nil in H.
Qed.

Lemma endsWith_append (suffix a b : string) :
  endsWith suffix b = true -> endsWith suffix (a ++ b) = true.
Proof.
  intros H. induction a as [|x a IH]; [exact H|].
  rewrite append_cons, endsWith_cons, IH. apply orb_true_r.
Qed.

(* ===================================================================== *)
(** * The filenames *)
(* ===================================================================== *)

(** X11. The six candidate filenames are pairwise distinct, whatever the
    version, platform and architecture, and a run of [main] asks for no url
    twice. *)
Theorem no_url_downloaded_twice process path input w :
  (forall fpmVersion platform arch, NoDup (candidates fpmVersion platform arch)) /\
  NoDup (map fst (downloads (snd (run (main process path input) w)))).
Proof.
  assert (Hcands : forall fpmVersion platform arch,
             NoDup (candidates fpmVersion platform arch)).
  { intros fpmVersion platform arch. unfold candidates, compilers. cbn [map].
    rewrite !filenameOf_layout.
    set (os := match Spec.osName platform with
               | Some os => os ++ "-" ++ Spec.archName arch
               | None => ""
               end).
    assert (Hinj : forall x y : string,
               "fpm-" ++ JS.replace "v" "" fpmVersion ++ "-" ++ os ++ x
               = "fpm-" ++ JS.replace "v" "" fpmVersion ++ "-" ++ os ++ y -> x = y).
    { intros x y H. now do 4 apply append_inj_l in H. }
    cbn [JS.truthy].
    destruct (platform =? "win32");
      repeat (constructor;
              [cbn [In]; intros H;
               repeat (destruct H as [H|H]; [apply Hinj in H; discriminate|]); exact H|]);
      constructor. }
  split; [exact Hcands|].
  destruct (main_shape process path input w)
    as (fpmVersion & tr & hit & ta & rest & -> & Er & Ea & Hc & He & Hend).
  destruct (resolveVersion_observed (github_token input) (fpm_version input) w
              [ConsoleLog ("fpm-version: " ++ fpm_version input);
               ConsoleLog ("fpm-repository: " ++ fpm_repository input)])
    as (v' & tr' & Er' & _ & _ & Hdtr & _).
  rewrite Er in Er'. injection Er' as <- <-.
  destruct (preamble_observed process input fpmVersion tr) as (_ & _ & Hdp & _).
  destruct (ending_observed _ _ _ _ _ _ _ _ Hend) as (_ & _ & _ & Hd & _).
  cbn [snd]. rewrite !downloads_app, Hdp, Hdtr. cbn [app]. rewrite map_app.
  rewrite (cascade_in_order _ _ _ Hc).
  assert (Hfirst : NoDup (firstn (List.length (downloads ta))
                            (map (append (fpm_repository input ++ "/releases/download/"
                                          ++ fpmVersion ++ "/"))
                               (candidates fpmVersion (platform process) (arch process))))).
  { apply NoDup_firstn. apply NoDup_map_injective; [|apply Hcands].
    intros x y H. now apply append_inj_l in H. }
  destruct Hd as [->|(_ & _ & _ & r & ->)]; cbn [map fst].
  - now rewrite app_nil_r.
  - apply NoDup_app; [exact Hfirst | repeat constructor; now intros [] | ].
    intros u Hu [<-|[]]. apply In_firstn in Hu. apply in_map_iff in Hu.
    destruct Hu as (f & Hf & _). unfold tarballUrl in Hf.
    rewrite append_assoc in Hf. apply append_inj_l in Hf. discriminate.
Qed.

(** X12. The candidate filenames end in [.exe] on win32, all six of them,
    and on no other platform. *)
Theorem exe_suffix_exactly_on_windows fpmVersion platform arch :
  Forall (fun filename => endsWith ".exe" filename = (platform =? "win32"))
         (candidates fpmVersion platform arch).
Proof.
  assert (Hone : forall compiler,
             In compiler ("" :: compilers) ->
             endsWith ".exe" (filenameOf fpmVersion platform arch compiler)
             = (platform =? "win32")).
  { intros compiler Hin. rewrite filenameOf_layout.
    destruct (platform =? "win32") eqn:Ew.
    - do 5 apply endsWith_append. reflexivity.
    - match goal with |- ?e = false => destruct e eqn:E; [|reflexivity] end.
      apply endsWith_lastChar in E; [|congruence]. exfalso. revert E.
      unfold Spec.osName, Spec.archName. rewrite Ew, append_nil_r.
      change ("-" ++ ?x) with (String "-" x).
      rewrite <- append_assoc, lastChar_append by discriminate.
      destruct (platform =? "linux"), (platform =? "darwin"), (arch =? "arm64");
        repeat (destruct Hin as [<-|Hin]; [cbn; discriminate|]); destruct Hin. }
  unfold candidates. change (filenameOf fpmVersion platform arch ""
                             :: map (filenameOf fpmVersion platform arch) compilers)
    with (map (filenameOf fpmVersion platform arch) ("" :: compilers)).
  apply Forall_forall. intros f Hf. apply in_map_iff in Hf.
  destruct Hf as (c & <- & Hc). now apply Hone.
Qed.

Lemma contains_replace_v (c : ascii) (s : string) :
  contains c s = false -> contains c (JS.replace "v" "" s) = false.
Proof.
  induction s as [|x s IH]; [reflexivity|].
  intros H. destruct (ascii_dec x "v") as [->|N].
  - rewrite replace_v_leading. cbn [contains] in H. now apply orb_false_elim in H.
  - cbn [contains] in H. apply orb_false_elim in H. destruct H as [Hx Hs].
    cbn [JS.replace String.prefix].
    destruct (ascii_dec "v" x) as [E|_]; [now elim N|].
    cbn [contains]. now rewrite Hx, (IH Hs).
Qed.

(* ===================================================================== *)
(** * Versions with and without the leading [v] *)
(* ===================================================================== *)

(** X13. The leading [v] of a version is optional: for a version that holds
    no other [v], the resolver returns the same filename, and the gate gives
    the same answer, with and without it. *)
Theorem leading_v_is_optional (version : string)
        (Hplain : contains "v" version = false) :
  (forall platform arch compiler w h,
      getFPMFilename ("v" ++ version) platform arch compiler w h
      = getFPMFilename version platform arch compiler w h) /\
  isOldVersion ("v" ++ version) = isOldVersion version.
Proof.
  assert (Hsame : JS.replace "v" "" ("v" ++ version) = JS.replace "v" "" version).
  { change ("v" ++ version) with (String "v" version).
    now rewrite replace_v_leading, (replace_v_absent _ Hplain). }
  split.
  - intros platform arch compiler w h.
    now rewrite !getFPMFilename_run, !filenameOf_layout, Hsame.
  - unfold isOldVersion. now rewrite Hsame.
Qed.

Lemma leading_v_is_optional_witness :
  contains "v" "0.10.1" = false /\
  (forall platform arch compiler w h,
      getFPMFilename ("v" ++ "0.10.1") platform arch compiler w h
      = getFPMFilename "0.10.1" platform arch compiler w h) /\
  isOldVersion ("v" ++ "0.10.1") = isOldVersion "0.10.1".
Proof.
  split; [reflexivity|]. exact (leading_v_is_optional "0.10.1" eq_refl).
Defined.

(** X14. The gate refuses no version without a [.]: a branch name, a commit
    hash or the unresolved [latest] has fewer than two components, and the
    comparison with an absent minor is false. *)
Theorem gate_permits_versions_without_a_dot (version : string)
        (Hnodot : contains "." version = false) :
  isOldVersion version = false.
Proof.
  unfold isOldVersion.
  rewrite (split_last _ (contains_replace_v "." version Hnodot)).
  cbn [map nth_error JS.lessThanNine]. apply andb_false_r.
Qed.

Lemma gate_permits_versions_without_a_dot_witness :
  contains "." "latest" = false /\ isOldVersion "latest" = false.
Proof.
  split; [reflexivity|]. exact (gate_permits_versions_without_a_dot "latest" eq_refl).
Defined.

Lemma isOldVersion_numbered_witness :
  digitsOnly "0" = true /\ "0" <> "" /\ digitsOnly "8" = true /\ "8" <> "" /\
  isOldVersion (numbered true "0" "8" (Some "0"))
  = (decimal 0 "0" =? 0)%Z && (decimal 0 "8" <? 9)%Z.
Proof.
  repeat (split; [first [reflexivity | discriminate]|]).
  apply (isOldVersion_numbered true "0" "8" (Some "0"));
    first [reflexivity | discriminate].
Defined.

Lemma buildAndInstall_unpacks process path fpmVersion fpmRepo gfortranCmd w h file dest :
  In (ExtractTar file dest)
     (calls (snd (buildAndInstall process path fpmVersion fpmRepo gfortranCmd w h))) ->
  In (tarballUrl fpmVersion fpmRepo, Resolved file)
     (downloads (snd (buildAndInstall process path fpmVersion fpmRepo gfortranCmd w h))) /\
  dest = buildDir process path.
Proof.
  unfold buildAndInstall. unfold_monad.
  answers w; cbn; intros Hin;
    repeat (destruct Hin as [Hin|Hin]; [try discriminate|]); try contradiction.
  all: injection Hin as <- <-.
  all: split; [left|]; reflexivity.
Qed.

(** X15. The archive [installFromSource] unpacks is the one it downloaded:
    [tc.extractTar] is called only on the file that the download of the
    source archive resolved to, and only into the build directory. *)
Theorem unpacks_what_it_downloaded process path fpmVersion fpmRepo w h file dest
        (Hin : In (ExtractTar file dest)
                  (calls (snd (installFromSource process path fpmVersion fpmRepo w h)))) :
  In (tarballUrl fpmVersion fpmRepo, Resolved file)
     (downloads (snd (installFromSource process path fpmVersion fpmRepo w h))) /\
  dest = buildDir process path.
Proof.
  revert Hin. rewrite installFromSource_run.
  destruct (discoverCompiler_selected w h) as (selected & td & -> & Hw & _ & _).
  assert (Hprobe : In (ExtractTar file dest) (calls td) -> False).
  { intros Hin. rewrite forallb_forall in Hw. specialize (Hw _ Hin). discriminate. }
  destruct selected as [cmd|]; [|now intros Hin; elim Hprobe].
  pose proof (buildAndInstall_unpacks process path fpmVersion fpmRepo cmd w (h ++ td)%list
                file dest) as Hb.
  destruct (buildAndInstall process path fpmVersion fpmRepo cmd w (h ++ td)%list)
    as [[[]|m] tb]; cbn [snd] in *; rewrite !calls_app, !downloads_app; intros Hin;
    apply in_app_or in Hin; destruct Hin as [Hin|Hin]; try (now elim Hprobe).
  - destruct (Hb Hin) as [Hd ->]. split; [|reflexivity]. apply in_or_app. now right.
  - apply in_app_or in Hin. destruct Hin as [Hin|[]].
    destruct (Hb Hin) as [Hd ->]. split; [|reflexivity].
    apply in_or_app. right. apply in_or_app. now left.
Qed.

Lemma unpacks_what_it_downloaded_witness :
  In (tarballUrl "v0.10.1" upstream, Resolved "/tmp/dl/source.tar.gz")
     (downloads (snd (installFromSource macArm posix "v0.10.1" upstream sourceOnly []))) /\
  "/tmp/runner/fpm-build" = buildDir macArm posix.
Proof.
  apply (unpacks_what_it_downloaded macArm posix "v0.10.1" upstream sourceOnly []).
  vm_compute. tauto.
Defined.




Lemma not_resolved_rejected (c : call) (message : string) (l1 l2 : list (call * response)) :
  ~ Forall resolved (l1 ++ (c, Rejected message) :: l2).
Proof.
  intros H. apply Forall_app in H. destruct H as [_ H]. inversion H as [|? ? Hr _]. exact Hr.
Qed.


(* ===================================================================== *)
(** * Runs that succeed, runs that obtain nothing *)
(* ===================================================================== *)



(** X17. When every download is rejected on a host that is not
    darwin/arm64, all six candidates were attempted and the run ends with
    two failures, registering nothing: the message about the release url
    and then, as nothing returns after it, the message of the TypeError that
    [path.dirname(undefined)] throws. *)
Theorem failed_fetch_is_reported_twice process path input w
        (Hhost : (platform process =? "darwin") && (arch process =? "arm64") = false)
        (Hnone : Forall rejected (downloads (snd (run (main process path input) w)))) :
  (exists before,
      snd (run (main process path input) w)
      = (before ++ [SetFailed fetchFailed; ConsoleLog "undefined";
                    SetFailed dirnameOfUndefined])%list) /\
  List.length (downloads (snd (run (main process path input) w))) = 6%nat /\
  paths (snd (run (main process path input) w)) = [].
Proof.
  revert Hnone.
  destruct (main_shape process path input w)
    as (fpmVersion & tr & hit & ta & rest & -> & Er & Ea & Hc & He & Hend).
  destruct (resolveVersion_observed (github_token input) (fpm_version input) w
              [ConsoleLog ("fpm-version: " ++ fpm_version input);
               ConsoleLog ("fpm-repository: " ++ fpm_repository input)])
    as (v' & tr' & Er' & _ & Hptr & Hdtr & _).
  rewrite Er in Er'. injection Er' as <- <-.
  destruct (preamble_observed process input fpmVersion tr) as (_ & Hpp & Hdp & _).
  destruct (cascadeEvent_calls _ He) as [_ Hpa].
  cbn [snd]. rewrite !downloads_app, !paths_app, Hdp, Hdtr, Hpp, Hptr, Hpa. cbn [app].
  intros Hnone. apply Forall_app in Hnone. destruct Hnone as [Hta _].
  destruct hit as [[u p]|].
  - exfalso. destruct (cascade_first_hit _ _ _ _ Hc) as (failed & Hd & _).
    rewrite Hd in Hta. apply Forall_app in Hta. destruct Hta as [_ Hta].
    inversion Hta as [|? ? Hr _]. exact Hr.
  - pose proof (cascade_all_failed _ _ Hc) as [_ Hall].
    cbn [option_map] in Hend.
    inversion Hend as [| |Hp Ha _|ti Hp Ha _ _|_]; subst;
      try (rewrite Hp, Ha in Hhost; discriminate).
    split; [|split].
    + exists (preamble process input fpmVersion tr ++ ta)%list. now rewrite app_assoc.
    + rewrite length_app. cbn [downloads List.length].
      rewrite <- (length_map fst), Hall, length_map. reflexivity.
    + reflexivity.
Qed.

Lemma failed_fetch_is_reported_twice_witness :
  (exists before,
      snd (run (main linux64 posix (request "v0.10.1")) offline)
      = (before ++ [SetFailed fetchFailed; ConsoleLog "undefined";
                    SetFailed dirnameOfUndefined])%list) /\
  List.length (downloads (snd (run (main linux64 posix (request "v0.10.1")) offline))) = 6%nat /\
  paths (snd (run (main linux64 posix (request "v0.10.1")) offline)) = [].
Proof.
  apply (failed_fetch_is_reported_twice linux64 posix (request "v0.10.1") offline).
  - reflexivity.
  - vm_compute. repeat constructor.
Defined.
